(** * Futuretools listing extractor, summarizer wrapper and presenter

    A shallow embedding of [futuretools_parser.py], [text_summarizer.py]
    and [information_organizer.py], together with the properties of the
    listing extractor, the summarization hook and the two presenters.

    Python strings are Rocq strings read as sequences of code points below
    256; the parsed document is a tree of tags and text nodes as
    BeautifulSoup exposes it (tag name, the multi-valued [class] attribute,
    the [href] attribute, the contents).  The two collaborators that touch
    the outside world, the page fetcher and the summarization pipeline,
    are passed in as arguments. *)

From Stdlib Require Import String Ascii List Bool Arith ZArith Lia.
From Stdlib Require Import DecimalString.
Import ListNotations.

#[local] Set Warnings "-register-all".

Local Open Scope string_scope.
Local Open Scope list_scope.

(** ** Python string primitives *)

Module PyStr.

(** [str.isspace] on one code point below 256: TAB..CR, FS..US, space,
    NEL and the no-break space. *)
Definition isspace (c : ascii) : bool :=
  let n := nat_of_ascii c in
  (((9 <=? n) && (n <=? 13)) || ((28 <=? n) && (n <=? 32))
   || (n =? 133) || (n =? 160))%nat.

Fixpoint lstrip (s : string) : string :=
  match s with
  | EmptyString => EmptyString
  | String c r => if isspace c then lstrip r else s
  end.

Fixpoint rstrip (s : string) : string :=
  match s with
  | EmptyString => EmptyString
  | String c r =>
      match rstrip r with
      | EmptyString => if isspace c then EmptyString else String c EmptyString
      | r' => String c r'
      end
  end.

(** [s.strip()] *)
Definition strip (s : string) : string := rstrip (lstrip s).

(** [s.startswith(p)] *)
Definition startswith (s p : string) : bool := String.prefix p s.

(** [sub in s] *)
Fixpoint contains (sub s : string) : bool :=
  String.prefix sub s
  || match s with
     | EmptyString => false
     | String _ r => contains sub r
     end.

(** [s[n:]] and [s[:n]] for [n >= 0] *)
Fixpoint slice_from (n : nat) (s : string) : string :=
  match n, s with
  | O, _ => s
  | S _, EmptyString => EmptyString
  | S k, String _ r => slice_from k r
  end.

Fixpoint slice_to (n : nat) (s : string) : string :=
  match n, s with
  | O, _ => EmptyString
  | S _, EmptyString => EmptyString
  | S k, String c r => String c (slice_to k r)
  end.

(** [s.split()]: maximal runs of non-whitespace characters.  [cur] is
    the word being read, if any. *)
Fixpoint split_from (cur : option string) (s : string) : list string :=
  match s with
  | EmptyString => match cur with Some w => [w] | None => [] end
  | String c r =>
      if isspace c
      then match cur with
           | Some w => w :: split_from None r
           | None => split_from None r
           end
      else split_from (Some (match cur with
                             | Some w => (w ++ String c EmptyString)%string
                             | None => String c EmptyString
                             end)) r
  end.

Definition split (s : string) : list string := split_from None s.

(** [sep.join(l)] *)
Definition join (sep : string) (l : list string) : string :=
  String.concat sep l.

(** [str(n)] for a natural number *)
Definition of_nat (n : nat) : string :=
  NilEmpty.string_of_uint (Nat.to_uint n).

(** truthiness of a string *)
Definition truthy (s : string) : bool := negb (s =? "").

Definition mem (s : string) (l : list string) : bool :=
  existsb (String.eqb s) l.

End PyStr.

(** ** The parsed document *)

(** A page element: a text node or a tag.  [class_] is the multi-valued
    [class] attribute ([None] when the attribute is absent), [href] the
    [href] attribute.  The text nodes are the strings [get_text] reads;
    comments, scripts and style sheets, which it skips, are not part of
    the tree. *)
Inductive node : Type :=
| NavigableString (s : string)
| Tag (name : string) (class_ : option (list string))
      (href : option string) (contents : list node).

Module Soup.

Definition name (n : node) : option string :=
  match n with
  | NavigableString _ => None
  | Tag nm _ _ _ => Some nm
  end.

Definition get_class (n : node) : option (list string) :=
  match n with
  | NavigableString _ => None
  | Tag _ c _ _ => c
  end.

Definition get_href (n : node) : option string :=
  match n with
  | NavigableString _ => None
  | Tag _ _ h _ => h
  end.

Definition is_tag (n : node) : bool :=
  match n with
  | NavigableString _ => false
  | Tag _ _ _ _ => true
  end.

(** [tag.descendants]: every element below the tag, in document order. *)
Fixpoint descendants (n : node) : list node :=
  match n with
  | NavigableString _ => []
  | Tag _ _ _ kids => flat_map (fun k => k :: descendants k) kids
  end.

(** The text nodes below (or at) an element, in document order. *)
Fixpoint all_strings (n : node) : list string :=
  match n with
  | NavigableString s => [s]
  | Tag _ _ _ kids => flat_map all_strings kids
  end.

(** [_all_strings(strip=True)]: each string stripped, empty ones dropped. *)
Definition stripped_strings (n : node) : list string :=
  filter PyStr.truthy (map PyStr.strip (all_strings n)).

(** [get_text(separator=sep, strip=True)] *)
Definition get_text (sep : string) (n : node) : string :=
  PyStr.join sep (stripped_strings n).

(** What [find] and [find_all] filter on: a list of tag names, an optional
    list of class values ([class_=[...]]) and an optional test of the
    [href] attribute ([href=True] or [href=lambda x: ...]). *)
Record strainer : Type := Strainer {
  st_name : list string;
  st_class : option (list string);
  st_href : option (option string -> bool)
}.

(** A multi-valued attribute matches a list of wanted values when one of
    its values is wanted, or the values joined by a space are; an absent
    attribute matches no non-empty list. *)
Definition class_matches (wanted : list string) (c : option (list string)) : bool :=
  match c with
  | None => match wanted with [] => true | _ => false end
  | Some vals =>
      existsb (fun v => PyStr.mem v wanted) vals
      || PyStr.mem (PyStr.join " " vals) wanted
  end.

Definition search_tag (st : strainer) (n : node) : bool :=
  match n with
  | NavigableString _ => false
  | Tag nm c h _ =>
      PyStr.mem nm (st_name st)
      && match st_class st with
         | None => true
         | Some wanted => class_matches wanted c
         end
      && match st_href st with
         | None => true
         | Some test => test h
         end
  end.

Definition find_all (st : strainer) (n : node) : list node :=
  filter (search_tag st) (descendants n).

Definition find (st : strainer) (n : node) : option node :=
  List.find (search_tag st) (descendants n).

(** The CSS attribute selector [[class*="sub"]]: the class attribute is
    present and its values, joined by a space, contain [sub]. *)
Definition class_contains (sub : string) (n : node) : bool :=
  match get_class n with
  | None => false
  | Some vals => PyStr.contains sub (PyStr.join " " vals)
  end.

(** [soup.select(sel1, sel2, ...)] for selectors of that form: the tags
    below the root that match one of them, in document order. *)
Definition select (subs : list string) (root : node) : list node :=
  filter (fun n => is_tag n && existsb (fun sub => class_contains sub n) subs)
         (descendants root).

End Soup.

(** ** Exceptions *)

(** The Python exceptions the modelled code can meet, and computations
    that either return or raise. *)
Inductive exn : Type :=
| KeyError (key : string)
| AttributeError (what : string).

Inductive result (A : Type) : Type :=
| Ok (a : A)
| Raise (e : exn).

Arguments Ok {A} a.
Arguments Raise {A} e.

Definition bind {A B : Type} (c : result A) (k : A -> result B) : result B :=
  match c with
  | Ok a => k a
  | Raise e => Raise e
  end.

Notation "x <- c ;; k" := (bind c (fun x => k))
  (at level 61, c at next level, right associativity).

(** [tag['href']]: a missing attribute is a [KeyError]. *)
Definition getitem_href (n : node) : result string :=
  match Soup.get_href n with
  | Some h => Ok h
  | None => Raise (KeyError "href")
  end.

(** ** text_summarizer.py *)

Module TextSummarizer.

(** What the transformers pipeline does on a call: it returns a list of
    summaries (each the [summary_text] of one result) or raises. *)
Inductive pipeline_result : Type :=
| Summaries (summary_list : list string)
| PipelineRaised (e : string).

(** [summarizer(text, max_length=..., min_length=..., do_sample=False)] *)
Definition pipeline : Type := string -> Z -> Z -> pipeline_result.

(** The values [summarize_text] may be handed as [text]. *)
Inductive pyval : Type :=
| PyNone
| PyBool (b : bool)
| PyInt (z : Z)
| PyStr (s : string)
| PyList (items : list pyval).

Definition truthy (v : pyval) : bool :=
  match v with
  | PyNone => false
  | PyBool b => b
  | PyInt z => negb (z =? 0)%Z
  | PyStr s => PyStr.truthy s
  | PyList items => match items with [] => false | _ => true end
  end.

Definition isinstance_str (v : pyval) : bool :=
  match v with
  | PyStr _ => true
  | _ => false
  end.

(** What a call leaves behind besides its return value: the warnings it
    prints and the calls it makes to the pipeline. *)
Inductive event : Type :=
| WarnShorterThanMin (words : nat) (min_length : Z)
| WarnVeryLong
| PipelineCalled (text : string) (max_length min_length : Z).

Definition msg_not_initialized : string :=
  "Summarization pipeline not initialized. Please check installation and logs.".

Definition msg_invalid : string := "Input text is empty or invalid.".

Definition summarize_text_run (summarizer : option pipeline) (text : pyval)
    (max_length min_length : Z) : string * list event :=
  match summarizer with
  | None => (msg_not_initialized, [])
  | Some model =>
      match text with
      | PyStr s =>
          if negb (PyStr.truthy s) || (String.length (PyStr.strip s) =? 0)%nat
          then (msg_invalid, [])
          else
            let words := List.length (PyStr.split s) in
            let w1 := if (Z.of_nat words <? min_length)%Z
                      then [WarnShorterThanMin words min_length] else [] in
            let w2 := if (1000 <? words)%nat then [WarnVeryLong] else [] in
            let log := w1 ++ w2 ++ [PipelineCalled s max_length min_length] in
            match model s max_length min_length with
            | Summaries (summary_text :: _) => (summary_text, log)
            | Summaries [] =>
                ("Error during summarization: list index out of range", log)
            | PipelineRaised e => ("Error during summarization: " ++ e, log)%string
            end
      | _ =>
          (* [not text or not isinstance(text, str)] holds: [len(text.strip())]
             is not evaluated *)
          (msg_invalid, [])
      end
  end.

(** [summarize_text(text, max_length, min_length)] *)
Definition summarize_text (summarizer : option pipeline) (text : pyval)
    (max_length min_length : Z) : string :=
  fst (summarize_text_run summarizer text max_length min_length).

(** The calls to the model made during [summarize_text]. *)
Definition pipeline_calls (summarizer : option pipeline) (text : pyval)
    (max_length min_length : Z) : list event :=
  filter (fun e => match e with PipelineCalled _ _ _ => true | _ => false end)
         (snd (summarize_text_run summarizer text max_length min_length)).

End TextSummarizer.

(** ** futuretools_parser.py *)

(** One extracted tool: the dictionary appended to [tools_found], a field
    per key. *)
Module Tool.
Record t : Type := Build {
  name : string;
  website_link : string;
  futuretools_link : string;
  description : string;
  summarized_description : string
}.
End Tool.

(** What the page fetcher hands back on success: the dictionary of
    [fetch_and_parse_website]. *)
Record link : Type := Link { link_text : string; link_href : string }.

Record video : Type := Video {
  video_url : string;
  video_title : string;
  retrieved_from_url : string
}.

Record page_data : Type := PageData {
  pd_text : string;
  pd_links : list link;
  pd_youtube_videos : list video;
  pd_soup : option node
}.

Module FuturetoolsParser.

Import TextSummarizer.

(** The sentinel of an unresolved field. *)
Definition NA : string := "N/A".

Definition base_url_ft : string := "https://www.futuretools.io".

(** *** Tool name *)

Inductive selector_key : Type :=
| primary
| fallback_heading
| fallback_link
| fallback_first_link_text.

Definition name_element_selectors : list (selector_key * Soup.strainer) :=
  [ (primary,
     Soup.Strainer ["h2"; "h3"; "h4"]
                   (Some ["tool-name"; "tool-title"; "card-title"]) None);
    (fallback_heading, Soup.Strainer ["h2"; "h3"; "h4"] None None);
    (fallback_link, Soup.Strainer ["a"] (Some ["title"; "name"]) None);
    (fallback_first_link_text, Soup.Strainer ["a"] None None) ].

Definition is_first_link_text (k : selector_key) : bool :=
  match k with
  | fallback_first_link_text => true
  | _ => false
  end.

(** The loop over the selectors: the value of [name_element] when the
    loop is left. *)
Fixpoint name_element_loop (selectors : list (selector_key * Soup.strainer))
    (container : node) : option node :=
  match selectors with
  | [] => None
  | (key, st) :: rest =>
      match Soup.find st container with
      | Some name_element =>
          if is_first_link_text key
          then if negb (PyStr.truthy (Soup.get_text "" name_element))
               then name_element_loop rest container   (* [continue] *)
               else Some name_element                  (* [break] *)
          else Some name_element                       (* [break] *)
      | None => name_element_loop rest container
      end
  end.

(** The pair [(name, current_tool_has_name)]. *)
Definition extract_name (container : node) : string * bool :=
  match name_element_loop name_element_selectors container with
  | Some name_element =>
      let name := Soup.get_text "" name_element in
      (name, PyStr.truthy name)
  | None => (NA, false)
  end.

(** *** Futuretools link (internal) *)

Definition is_tool_path (x : string) : bool :=
  PyStr.startswith x "/tool/" || PyStr.startswith x "/tools/".

(** [lambda x: x and (x.startswith('/tool/') or x.startswith('/tools/'))] *)
Definition ft_href_test (x : option string) : bool :=
  match x with
  | Some h => PyStr.truthy h && is_tool_path h
  | None => false
  end.

(** [find('a', href=lambda x: ...)]: the first link whose href is a tool
    path. *)
Definition tool_path_link : Soup.strainer :=
  Soup.Strainer ["a"] None (Some ft_href_test).

(** The pair [(futuretools_link_internal, current_tool_has_ft_link)] after
    the check of the container itself. *)
Definition ft_link_of_container (container : node) : string * bool :=
  if match Soup.name container with Some nm => nm =? "a" | None => false end
  then
    let href_candidate :=
      match Soup.get_href container with Some h => h | None => "" end in
    if is_tool_path href_candidate then (href_candidate, true) else (NA, false)
  else (NA, false).

(** The same pair after the search below the container, made when the
    container was not the link. *)
Definition ft_link_of_descendants (container : node) (found : string * bool)
    : result (string * bool) :=
  if negb (snd found)
  then
    match Soup.find tool_path_link container with
    | Some ft_link_element =>
        h <- getitem_href ft_link_element ;;
        Ok (h, true)
    | None => Ok found
    end
  else Ok found.

(** A resolved link that starts with a slash is put after the base URL. *)
Definition absolute_ft_link (found : string * bool) : string * bool :=
  if snd found && PyStr.startswith (fst found) "/"
  then ((base_url_ft ++ fst found)%string, snd found)
  else found.

(** The final pair [(futuretools_link_internal, current_tool_has_ft_link)]. *)
Definition extract_ft_link (container : node) : result (string * bool) :=
  found <- ft_link_of_descendants container (ft_link_of_container container) ;;
  Ok (absolute_ft_link found).

(** *** Tool website link (external) *)

Definition external_link_classes : list string :=
  ["external-link"; "website-button"; "tool-website-link"; "outbound";
   "visit-tool-button"].

(** [find('a', class_=[...])]: the first link with one of the classes of
    a website button. *)
Definition marked_link : Soup.strainer :=
  Soup.Strainer ["a"] (Some external_link_classes) None.

(** [find_all('a', href=True)] *)
Definition has_href (x : option string) : bool :=
  match x with Some _ => true | None => false end.

Definition link_with_href : Soup.strainer :=
  Soup.Strainer ["a"] None (Some has_href).

(** [href.startswith('http') and 'futuretools.io' not in href] *)
Definition is_external_href (href : string) : bool :=
  PyStr.startswith href "http" && negb (PyStr.contains "futuretools.io" href).

(** The loop over [find_all('a', href=True)]: the first accepted href. *)
Fixpoint fallback_website_link (all_links_in_container : list node)
    (futuretools_link_internal : string) : result (option string) :=
  match all_links_in_container with
  | [] => Ok None
  | link_tag :: rest =>
      href <- getitem_href link_tag ;;
      if is_external_href href && negb (href =? futuretools_link_internal)
      then Ok (Some href)
      else fallback_website_link rest futuretools_link_internal
  end.

(** The pair [(website_link, current_tool_has_website_link)]. *)
Definition extract_website_link (container : node)
    (futuretools_link_internal : string) : result (string * bool) :=
  match Soup.find marked_link container with
  | Some external_link_element =>
      let website_link :=
        match Soup.get_href external_link_element with
        | Some h => h
        | None => ""
        end in
      if PyStr.truthy website_link && is_external_href website_link
      then Ok (website_link, true)
      else Ok (NA, false)
  | None =>
      r <- fallback_website_link (Soup.find_all link_with_href container)
                                 futuretools_link_internal ;;
      match r with
      | Some href => Ok (href, true)
      | None => Ok (NA, false)
      end
  end.

(** *** Tool description *)

Definition description_classes : list string :=
  ["description"; "tool-description"; "card-text"; "item-description";
   "tool-card-description"].

(** The loop over [find_all('p')]: the first paragraph with more than 20
    characters of text. *)
Fixpoint fallback_paragraph (all_paragraphs : list node) : option string :=
  match all_paragraphs with
  | [] => None
  | p_tag :: rest =>
      let p_text := Soup.get_text "" p_tag in
      if PyStr.truthy p_text && (20 <? String.length p_text)%nat
      then Some p_text
      else fallback_paragraph rest
  end.

(** The pair [(description, current_tool_has_description)] after the
    class-marked element and the paragraph fallback. *)
Definition description_from_elements (container : node) : string * bool :=
  match Soup.find (Soup.Strainer ["p"; "div"] (Some description_classes) None)
                  container with
  | Some desc_element =>
      let description := Soup.get_text "" desc_element in
      (description, PyStr.truthy description)
  | None =>
      match fallback_paragraph
              (Soup.find_all (Soup.Strainer ["p"] None None) container) with
      | Some p_text => (p_text, true)
      | None => (NA, false)
      end
  end.

(** The same pair after the last fallback, the text of the whole card. *)
Definition extract_description (container : node) (name : string)
    (current_tool_has_name : bool) (futuretools_link_internal : string)
    : string * bool :=
  let found := description_from_elements container in
  if negb (snd found) && current_tool_has_name
  then
    let container_text := Soup.get_text " " container in
    let container_text :=
      if negb (name =? "N/A") && PyStr.startswith container_text name
      then PyStr.strip (PyStr.slice_from (String.length name) container_text)
      else container_text in
    if (30 <? String.length container_text)%nat
       && negb (container_text =? futuretools_link_internal)
    then (container_text, true)
    else found
  else found.

(** *** Summarization of the description *)

Definition summarize_description (summarizer : option pipeline)
    (description : string) (current_tool_has_description : bool) : string :=
  if current_tool_has_description
     && (30 <? List.length (PyStr.split description))%nat
  then summarize_text summarizer (PyStr description) 50 15
  else if current_tool_has_description then description
  else NA.

(** *** One pass of the loop body *)

(** The local variables of the loop body once the fields are extracted. *)
Record locals : Type := Locals {
  name : string;
  website_link : string;
  futuretools_link_internal : string;
  description : string;
  summarized_description : string;
  current_tool_has_name : bool;
  current_tool_has_website_link : bool;
  current_tool_has_ft_link : bool;
  current_tool_has_description : bool
}.

Definition process_container (summarizer : option pipeline) (container : node)
    : result locals :=
  let nm := extract_name container in
  ft <- extract_ft_link container ;;
  web <- extract_website_link container (fst ft) ;;
  let desc := extract_description container (fst nm) (snd nm) (fst ft) in
  Ok {| name := fst nm;
        website_link := fst web;
        futuretools_link_internal := fst ft;
        description := fst desc;
        summarized_description :=
          summarize_description summarizer (fst desc) (snd desc);
        current_tool_has_name := snd nm;
        current_tool_has_website_link := snd web;
        current_tool_has_ft_link := snd ft;
        current_tool_has_description := snd desc |}.

Definition tool_of (l : locals) : Tool.t :=
  {| Tool.name := name l;
     Tool.website_link := website_link l;
     Tool.futuretools_link := futuretools_link_internal l;
     Tool.description := description l;
     Tool.summarized_description := summarized_description l |}.

(** *** Counts and the list of tools *)

Record counters : Type := Counters {
  processed_tools_count : nat;
  missing_names_count : nat;
  missing_website_links_count : nat;
  missing_ft_links_count : nat;
  missing_descriptions_count : nat
}.

Record state : Type := State {
  tools_found : list Tool.t;
  counts : counters
}.

Definition initial_state : state := State [] (Counters 0 0 0 0 0).

Definition incr_unless (b : bool) (n : nat) : nat := if b then n else S n.

(** The acceptance test: a name and at least one of the two links. *)
Definition accepted (l : locals) : bool :=
  current_tool_has_name l
  && (current_tool_has_website_link l || current_tool_has_ft_link l).

(** "Update Counts & Append Tool", for a page of [n_containers] containers. *)
Definition update_counts (n_containers : nat) (st : state) (l : locals) : state :=
  let c := counts st in
  if accepted l
  then
    State (tools_found st ++ [tool_of l])
          (Counters
             (S (processed_tools_count c))
             (incr_unless (current_tool_has_name l) (missing_names_count c))
             (incr_unless (current_tool_has_website_link l)
                          (missing_website_links_count c))
             (incr_unless (current_tool_has_ft_link l) (missing_ft_links_count c))
             (incr_unless (current_tool_has_description l)
                          (missing_descriptions_count c)))
  else if current_tool_has_name l
  then
    State (tools_found st)
          (Counters (processed_tools_count c) (missing_names_count c)
                    (S (missing_website_links_count c))
                    (S (missing_ft_links_count c))
                    (missing_descriptions_count c))
  else if (0 <? n_containers)%nat
  then
    State (tools_found st)
          (Counters (processed_tools_count c) (S (missing_names_count c))
                    (missing_website_links_count c) (missing_ft_links_count c)
                    (missing_descriptions_count c))
  else st.

(** The loop over the containers. *)
Fixpoint process_containers (summarizer : option pipeline) (n_containers : nat)
    (containers : list node) (st : state) : result state :=
  match containers with
  | [] => Ok st
  | container :: rest =>
      l <- process_container summarizer container ;;
      process_containers summarizer n_containers rest
                         (update_counts n_containers st l)
  end.

(** *** The whole extraction *)

(** What the run prints about itself: why it stopped early, or the
    "Futuretools Parsing Summary" with the number of containers and the
    counts.  The lines printed while a single container is read ("Info:",
    "Warning:") change no variable and are left out. *)
Inductive report : Type :=
| FetchFailed
| SoupMissing
| NoContainers
| ParsingSummary (n_containers : nat) (c : counters).

(** The number printed after "Tools missing a discernible Name:". *)
Definition reported_missing_names (n_containers : nat) (c : counters) : nat :=
  if (processed_tools_count c =? 0)%nat && (0 <? n_containers)%nat
  then missing_names_count c
  else (missing_names_count c
        + (if (missing_names_count c =? 0)%nat
           then n_containers - processed_tools_count c
           else 0))%nat.

Definition discover_containers (soup : node) : list node :=
  match Soup.select ["tool-card"] soup with
  | [] => Soup.select ["item"; "collection-item"] soup
  | tool_containers => tool_containers
  end.

(** The run of [extract_tools_from_futuretools(url)]: the list it returns
    and the report it prints. *)
Definition extract_tools_run (fetch_and_parse_website : string -> option page_data)
    (summarizer : option pipeline) (url : string)
    : result (list Tool.t * report) :=
  match fetch_and_parse_website url with
  | None => Ok ([], FetchFailed)
  | Some parsed_data =>
      match pd_soup parsed_data with
      | None => Ok ([], SoupMissing)
      | Some soup =>
          match discover_containers soup with
          | [] => Ok ([], NoContainers)
          | tool_containers =>
              st <- process_containers summarizer (List.length tool_containers)
                                       tool_containers initial_state ;;
              Ok (tools_found st,
                  ParsingSummary (List.length tool_containers) (counts st))
          end
      end
  end.

Definition extract_tools_from_futuretools
    (fetch_and_parse_website : string -> option page_data)
    (summarizer : option pipeline) (url : string) : result (list Tool.t) :=
  r <- extract_tools_run fetch_and_parse_website summarizer url ;;
  Ok (fst r).

End FuturetoolsParser.

(** ** information_organizer.py *)

Module InformationOrganizer.

Import TextSummarizer.

(** What the presenters are handed as [data]: nothing, a list of tool
    dictionaries, or the dictionary of a fetched page. *)
Inductive pydata : Type :=
| DataNone
| DataTools (tools : list Tool.t)
| DataPage (page : page_data).

Definition truthy (data : pydata) : bool :=
  match data with
  | DataNone => false
  | DataTools tools => match tools with [] => false | _ => true end
  | DataPage _ => true
  end.

(** [enumerate(l)], counted from [i]. *)
Fixpoint enumerate_from {A : Type} (i : nat) (l : list A) : list (nat * A) :=
  match l with
  | [] => []
  | x :: rest => (i, x) :: enumerate_from (S i) rest
  end.

Definition enumerate {A : Type} (l : list A) : list (nat * A) :=
  enumerate_from 0 l.

Definition invalid_source_type : string :=
  "Invalid source_type provided. Use 'futuretools' or 'generic_website'.".

Definition nl : string := String (ascii_of_nat 10) EmptyString.

Local Open Scope string_scope.

(** *** List format *)

Definition tool_lines (it : nat * Tool.t) : list string :=
  let '(i, tool) := it in
  [ nl ++ "Tool " ++ PyStr.of_nat (i + 1) ++ ":";
    "  Name: " ++ Tool.name tool;
    "  Website: " ++ Tool.website_link tool ].

Definition link_lines (it : nat * link) : list string :=
  let '(i, l) := it in
  [ "  " ++ PyStr.of_nat (i + 1) ++ ". Text: " ++ link_text l;
    "     Href: " ++ link_href l ].

Definition video_lines (it : nat * video) : list string :=
  let '(i, v) := it in
  [ "  " ++ PyStr.of_nat (i + 1) ++ ". Title: " ++ video_title v;
    "     URL: " ++ video_url v ].

(** The list [output_lines] of the generic-website branch for a fetched
    page. *)
Definition page_list_lines (page : page_data) : list string :=
  let links := pd_links page in
  let youtube_videos := pd_youtube_videos page in
  ["--- Website Content (List Format) ---"]
  ++ (match links with
      | [] => [nl ++ "No hyperlinks extracted."]
      | _ => (nl ++ "--- Hyperlinks ---")
             :: flat_map link_lines (enumerate (firstn 10 links))
      end)
  ++ (match youtube_videos with
      | [] => [nl ++ "No YouTube videos identified."]
      | _ => (nl ++ "--- YouTube Videos ---")
             :: flat_map video_lines (enumerate youtube_videos)
      end).

Definition format_data_as_list (data : pydata) (source_type : string)
    : result string :=
  if source_type =? "futuretools" then
    if negb (truthy data) then
      Ok (PyStr.join nl ["--- AI Tools (List Format) ---";
                         "No tools data provided or tools list is empty."])
    else
      match data with
      | DataTools tools =>
          Ok (PyStr.join nl ("--- AI Tools (List Format) ---"
                             :: flat_map tool_lines (enumerate tools)))
      | _ =>
          (* the loop runs over the keys of the dictionary *)
          Raise (AttributeError "'str' object has no attribute 'get'")
      end
  else if source_type =? "generic_website" then
    if negb (truthy data) then
      Ok (PyStr.join nl ["--- Website Content (List Format) ---";
                         "No website data provided."])
    else
      match data with
      | DataPage page => Ok (PyStr.join nl (page_list_lines page))
      | _ => Raise (AttributeError "'list' object has no attribute 'get'")
      end
  else Ok invalid_source_type.

(** *** Paragraph format *)

Definition tool_paragraph (tool : Tool.t) : string :=
  let desc := if PyStr.truthy (Tool.summarized_description tool)
              then Tool.summarized_description tool
              else Tool.description tool in
  "Tool: " ++ Tool.name tool ++ nl
  ++ "Description: " ++ desc ++ nl
  ++ "Website: " ++ Tool.website_link tool ++ nl
  ++ (if negb (Tool.futuretools_link tool =? "N/A")
      then "FutureTools Page: " ++ Tool.futuretools_link tool ++ nl
      else "").

Definition link_item (l : link) : string :=
  "- " ++ link_text l ++ " (" ++ link_href l ++ ")" ++ nl.

Definition video_item (v : video) : string :=
  "- " ++ video_title v ++ " (" ++ video_url v ++ ")" ++ nl.

(** The list [output_paragraphs] of the generic-website branch for a
    fetched page. *)
Definition page_paragraphs (text_summarizer_pipeline : option pipeline)
    (page : page_data) : list string :=
  let main_text := pd_text page in
  let links := pd_links page in
  let youtube_videos := pd_youtube_videos page in
  ["--- Website Content (Paragraph Format) ---"]
  ++ [ if PyStr.truthy main_text
       then match text_summarizer_pipeline with
            | Some _ =>
                "Website Summary:" ++ nl
                ++ summarize_text text_summarizer_pipeline (PyStr main_text) 150 40
            | None =>
                "Website Summary:" ++ nl
                ++ "(Summarizer not available or text too short). Full text snippet:"
                ++ nl ++ PyStr.slice_to 500 main_text ++ "..."
            end
       else "No main text content extracted to summarize." ]
  ++ (match links with
      | [] => []
      | _ => [ "Key Hyperlinks Found:" ++ nl
               ++ String.concat "" (map link_item (firstn 5 links))
               ++ (if (5 <? List.length links)%nat
                   then "...and " ++ PyStr.of_nat (List.length links - 5)
                        ++ " more links."
                   else "") ]
      end)
  ++ (match youtube_videos with
      | [] => []
      | _ => [ "YouTube Videos Found:" ++ nl
               ++ String.concat "" (map video_item youtube_videos) ]
      end).

Definition format_data_as_paragraphs (text_summarizer_pipeline : option pipeline)
    (data : pydata) (source_type : string) : result string :=
  if source_type =? "futuretools" then
    if negb (truthy data) then
      Ok (PyStr.join (nl ++ nl)
                     ["--- AI Tools (Paragraph Format) ---";
                      "No tools data provided or tools list is empty."])
    else
      match data with
      | DataTools tools =>
          Ok (PyStr.join (nl ++ nl)
                         ("--- AI Tools (Paragraph Format) ---"
                          :: map tool_paragraph tools))
      | _ => Raise (AttributeError "'str' object has no attribute 'get'")
      end
  else if source_type =? "generic_website" then
    if negb (truthy data) then
      Ok (PyStr.join (nl ++ nl)
                     ["--- Website Content (Paragraph Format) ---";
                      "No website data provided."])
    else
      match data with
      | DataPage page =>
          Ok (PyStr.join (nl ++ nl) (page_paragraphs text_summarizer_pipeline page))
      | _ => Raise (AttributeError "'list' object has no attribute 'get'")
      end
  else Ok invalid_source_type.

End InformationOrganizer.

(** ** The name chain as the specification words it *)

Module Specified.

Import FuturetoolsParser.

(** The chain in which a candidate with empty trimmed text is passed over
    at every stage, and the next selector is tried. *)
Fixpoint name_element_chain (selectors : list (selector_key * Soup.strainer))
    (container : node) : option node :=
  match selectors with
  | [] => None
  | (_, st) :: rest =>
      match Soup.find st container with
      | Some candidate =>
          if PyStr.truthy (Soup.get_text "" candidate)
          then Some candidate
          else name_element_chain rest container
      | None => name_element_chain rest container
      end
  end.

Definition extract_name (container : node) : string * bool :=
  match name_element_chain name_element_selectors container with
  | Some name_element => (Soup.get_text "" name_element, true)
  | None => (NA, false)
  end.

End Specified.

(** ** Sample documents *)

Module Samples.

Definition text (s : string) : node := NavigableString s.

(** A card with a heading, a directory link and an empty description
    element. *)
Definition card_acme : node :=
  Tag "div" (Some ["tool-card"]) None
    [ Tag "h3" None None [text " Acme "];
      Tag "a" None (Some "/tool/acme-ai") [text "x"];
      Tag "p" (Some ["description"]) None [] ].

(** A card whose class-marked heading is empty and whose link carries the
    name. *)
Definition card_empty_heading : node :=
  Tag "div" (Some ["tool-card"]) None
    [ Tag "h3" (Some ["tool-name"]) None [text "  "];
      Tag "a" None (Some "/tool/acme-ai") [text "Acme"] ].

(** A card with a link but nothing that yields a name. *)
Definition card_nameless : node :=
  Tag "div" (Some ["tool-card"]) None
    [ Tag "a" None (Some "/tool/ghost") [] ].

(** A card with a name and no usable link. *)
Definition card_linkless : node :=
  Tag "div" (Some ["tool-card"]) None
    [ Tag "h3" None None [text "Orphan"] ].

Definition long_description : string :=
  "Acme turns long product pages into short briefs for busy teams and keeps every source linked so that readers can check each claim against the original text with one single click".

(** A card with a description of 31 words. *)
Definition card_long_description : node :=
  Tag "div" (Some ["tool-card"]) None
    [ Tag "h3" None None [text "Acme"];
      Tag "a" None (Some "https://acme.example/") [text "Visit"];
      Tag "p" (Some ["description"]) None [text long_description] ].

(** A card whose class-marked visit button points back to the directory
    while another link leaves the site. *)
Definition card_same_domain : node :=
  Tag "div" (Some ["tool-card"]) None
    [ Tag "h3" None None [text "Acme"];
      Tag "a" (Some ["external-link"])
          (Some "https://www.futuretools.io/visit/acme") [text "Visit"];
      Tag "a" None (Some "https://acme.example/") [text "Home"];
      Tag "a" None (Some "/tool/acme-ai") [text "Details"] ].

Definition document (cards : list node) : node :=
  Tag "[document]" None None [Tag "body" None None cards].

Definition page (cards : list node) : page_data :=
  PageData "" [] [] (Some (document cards)).

Definition fetch_page (cards : list node) (url : string) : option page_data :=
  Some (page cards).

Definition fetch_nothing (url : string) : option page_data := None.

(** A document with no element of a [tool-card] or [item] class. *)
Definition plain_document : node :=
  Tag "[document]" None None
    [ Tag "body" None None
        [ Tag "div" (Some ["hero"]) None [text "Welcome"];
          Tag "p" None None [text "Nothing listed yet."] ] ].

(** A fetched page with text and neither links nor videos. *)
Definition bare_page : page_data := PageData "" [] [] None.

(** A pipeline that answers every call with a fixed summary. *)
Definition fixed_pipeline : TextSummarizer.pipeline :=
  fun _ _ _ => TextSummarizer.Summaries ["A short brief."].

End Samples.

(** ** What a pass over one container establishes *)

Module Invariants.

Import FuturetoolsParser.

(** A directory link before it is made absolute: a tool path when
    resolved, the sentinel otherwise. *)
Definition raw_ft_link (p : string * bool) : Prop :=
  if snd p then is_tool_path (fst p) = true else fst p = NA.

(** The directory link as stored: the base URL followed by a tool path
    when resolved, the sentinel otherwise. *)
Definition stored_ft_link (p : string * bool) : Prop :=
  if snd p
  then exists h, is_tool_path h = true /\ fst p = (base_url_ft ++ h)%string
  else fst p = NA.

(** The website link as stored: an href that passed the external test
    when resolved, the sentinel otherwise. *)
Definition stored_website_link (p : string * bool) : Prop :=
  if snd p then is_external_href (fst p) = true else fst p = NA.

(** The locals a list of containers yields, one by one. *)
Definition locals_of (summarizer : option TextSummarizer.pipeline)
    (containers : list node) (ls : list locals) : Prop :=
  Forall2 (fun c l => process_container summarizer c = Ok l) containers ls.

(** A string of whitespace only; the empty string is one. *)
Fixpoint whitespace_only (s : string) : bool :=
  match s with
  | EmptyString => true
  | String c r => PyStr.isspace c && whitespace_only r
  end.

(** How many of the locals satisfy a test. *)
Definition count (f : locals -> bool) (ls : list locals) : nat :=
  List.length (filter f ls).

(** The four ways a run ends. *)
Inductive run_outcome (summarizer : option TextSummarizer.pipeline)
    (fetch_and_parse_website : string -> option page_data) (url : string)
    : Prop :=
| fetch_failed :
    fetch_and_parse_website url = None ->
    extract_tools_run fetch_and_parse_website summarizer url
    = Ok ([], FetchFailed) ->
    run_outcome summarizer fetch_and_parse_website url
| soup_missing (parsed_data : page_data) :
    fetch_and_parse_website url = Some parsed_data ->
    pd_soup parsed_data = None ->
    extract_tools_run fetch_and_parse_website summarizer url
    = Ok ([], SoupMissing) ->
    run_outcome summarizer fetch_and_parse_website url
| no_containers (parsed_data : page_data) (soup : node) :
    fetch_and_parse_website url = Some parsed_data ->
    pd_soup parsed_data = Some soup ->
    discover_containers soup = [] ->
    extract_tools_run fetch_and_parse_website summarizer url
    = Ok ([], NoContainers) ->
    run_outcome summarizer fetch_and_parse_website url
| containers_processed (parsed_data : page_data) (soup : node)
    (ls : list locals) :
    fetch_and_parse_website url = Some parsed_data ->
    pd_soup parsed_data = Some soup ->
    discover_containers soup <> [] ->
    locals_of summarizer (discover_containers soup) ls ->
    extract_tools_run fetch_and_parse_website summarizer url
    = Ok (map tool_of (filter accepted ls),
          ParsingSummary
            (List.length (discover_containers soup))
            (counts (fold_left
                       (update_counts (List.length (discover_containers soup)))
                       ls initial_state))) ->
    run_outcome summarizer fetch_and_parse_website url.

End Invariants.

(** ** web_parser.py: the links of a page *)

Module WebParser.

(** [href.startswith('http://') or href.startswith('https://')] *)
Definition is_http_url (href : string) : bool :=
  PyStr.startswith href "http://" || PyStr.startswith href "https://".

(** ["youtube.com/watch?v=" in href or "youtu.be/" in href] *)
Definition is_youtube_url (href : string) : bool :=
  PyStr.contains "youtube.com/watch?v=" href || PyStr.contains "youtu.be/" href.

(** One pass of the loop over [soup.find_all('a', href=True)], on the
    pair [(links, youtube_videos)]. *)
Definition collect_link (url : string) (acc : list link * list video)
    (link_tag : node) : result (list link * list video) :=
  let anchor_text := Soup.get_text "" link_tag in
  href <- getitem_href link_tag ;;
  if PyStr.truthy href && is_http_url href
  then Ok (fst acc ++ [Link anchor_text href],
           if is_youtube_url href
           then snd acc ++ [Video href anchor_text url]
           else snd acc)
  else Ok acc.

Fixpoint collect_links (url : string) (link_tags : list node)
    (acc : list link * list video) : result (list link * list video) :=
  match link_tags with
  | [] => Ok acc
  | link_tag :: rest =>
      acc' <- collect_link url acc link_tag ;;
      collect_links url rest acc'
  end.

(** "Extract all hyperlinks": the lists [links] and [youtube_videos] of
    the page fetched from [url]. *)
Definition links_and_videos (soup : node) (url : string)
    : result (list link * list video) :=
  collect_links url (Soup.find_all FuturetoolsParser.link_with_href soup) ([], []).

End WebParser.

(** ** Notions the further properties are stated with *)

Module Derived.

Import TextSummarizer.

(** The href of a tag read with [get('href', '')]. *)
Definition href_or_empty (e : node) : string :=
  match Soup.get_href e with Some h => h | None => "" end.

(** The link and the video entry a link tag gives rise to. *)
Definition link_of_tag (e : node) : link :=
  Link (Soup.get_text "" e) (href_or_empty e).

Definition video_of_tag (url : string) (e : node) : video :=
  Video (href_or_empty e) (Soup.get_text "" e) url.

Definition is_web_link (e : node) : bool :=
  PyStr.truthy (href_or_empty e) && WebParser.is_http_url (href_or_empty e).

Definition is_video_link (e : node) : bool :=
  is_web_link e && WebParser.is_youtube_url (href_or_empty e).

(** What [summarize_text] makes of the answer of the pipeline. *)
Definition answer_of (r : pipeline_result) : string :=
  match r with
  | Summaries (summary_text :: _) => summary_text
  | Summaries [] => "Error during summarization: list index out of range"
  | PipelineRaised e => ("Error during summarization: " ++ e)%string
  end.

(** The data handed to a presenter is not of the kind its source type
    reads: a page dictionary read as a list of tools, or a non-empty list
    read as a page dictionary. *)
Definition mismatched (data : InformationOrganizer.pydata) (source_type : string)
    : Prop :=
  (source_type = "futuretools"
   /\ exists page, data = InformationOrganizer.DataPage page)
  \/ (source_type = "generic_website"
      /\ exists tool tools, data = InformationOrganizer.DataTools (tool :: tools)).

(** An element that is neither a heading of level 2 to 4 nor a link. *)
Definition plain_element (e : node) : bool :=
  match Soup.name e with
  | Some nm => negb (PyStr.mem nm ["h2"; "h3"; "h4"; "a"])
  | None => true
  end.





End Derived.

(** ** Further sample documents *)

Module MoreSamples.

(** A page with a site link, a video link, a relative link and a link
    without href. *)
Definition blog_document : node :=
  Tag "[document]" None None
    [ Tag "body" None None
        [ Tag "a" None (Some "https://example.org/post") [NavigableString " Post "];
          Tag "a" None (Some "/about") [NavigableString "About"];
          Tag "p" None None
            [ Tag "a" None (Some "https://youtu.be/abc123") [NavigableString "Talk"] ];
          Tag "a" None None [NavigableString "Top"] ] ].

Definition blog_url : string := "https://example.org/".



(** A card with a paragraph and neither a heading nor a link. *)
Definition card_plain : node :=
  Tag "div" (Some ["tool-card"]) None
    [ Tag "p" None None [NavigableString "Coming soon."];
      Tag "span" None None [NavigableString "New"] ].

End MoreSamples.

(** ** Facts about the string primitives and the tree queries *)

Section Basics.

Import FuturetoolsParser.

Lemma startswith_http_not_NA (h : string) :
  PyStr.startswith h "http" = true -> h <> NA.
Proof.
  intros H ->. vm_compute in H. discriminate.
Qed.

Lemma external_href_not_NA (h : string) :
  is_external_href h = true -> h <> NA.
Proof.
  unfold is_external_href. intros H.
  apply andb_true_iff in H. destruct H as [H _].
  now apply startswith_http_not_NA.
Qed.

Lemma external_href_off_site (h : string) :
  is_external_href h = true ->
  PyStr.startswith h "http" = true
  /\ PyStr.contains "futuretools.io" h = false.
Proof.
  unfold is_external_href. intros H.
  apply andb_true_iff in H. destruct H as [H1 H2].
  now apply negb_true_iff in H2.
Qed.

Lemma base_prefixed_not_NA (h : string) : (base_url_ft ++ h)%string <> NA.
Proof. unfold base_url_ft, NA. simpl. discriminate. Qed.

Lemma tool_path_starts_with_slash (h : string) :
  is_tool_path h = true -> PyStr.startswith h "/" = true.
Proof.
  unfold is_tool_path, PyStr.startswith.
  destruct h as [| a h]; cbn -[ascii_dec]; [discriminate |].
  destruct (ascii_dec "/" a); [now destruct h | discriminate].
Qed.

Lemma truthy_nonempty (s : string) : PyStr.truthy s = true <-> s <> "".
Proof.
  unfold PyStr.truthy. rewrite negb_true_iff. apply String.eqb_neq.
Qed.

Lemma find_sound (st : Soup.strainer) (c e : node) :
  Soup.find st c = Some e ->
  In e (Soup.descendants c) /\ Soup.search_tag st e = true.
Proof. unfold Soup.find. apply find_some. Qed.

Lemma search_tag_href (names : list string) (cls : option (list string))
    (test : option string -> bool) (e : node) :
  Soup.search_tag (Soup.Strainer names cls (Some test)) e = true ->
  test (Soup.get_href e) = true.
Proof.
  destruct e as [s | nm c h kids]; simpl; [discriminate |].
  intros H. apply andb_true_iff in H. tauto.
Qed.

Lemma ft_href_test_inv (x : option string) :
  ft_href_test x = true -> exists h, x = Some h /\ is_tool_path h = true.
Proof.
  destruct x as [h |]; simpl; [| discriminate].
  intros H. apply andb_true_iff in H. destruct H. eauto.
Qed.

Lemma has_href_inv (x : option string) :
  has_href x = true -> exists h, x = Some h.
Proof. destruct x; simpl; [eauto | discriminate]. Qed.

Lemma find_all_href (names : list string) (cls : option (list string))
    (test : option string -> bool) (c e : node) :
  In e (Soup.find_all (Soup.Strainer names cls (Some test)) c) ->
  In e (Soup.descendants c) /\ test (Soup.get_href e) = true.
Proof.
  unfold Soup.find_all. rewrite filter_In. intros [Hin Hs].
  split; [assumption |]. now apply search_tag_href in Hs.
Qed.

End Basics.

(** ** The fields of one container *)

Section Fields.

Import FuturetoolsParser Invariants.

Lemma extract_name_nonempty (c : node) :
  snd (extract_name c) = true -> fst (extract_name c) <> "".
Proof.
  unfold extract_name.
  destruct (name_element_loop name_element_selectors c); simpl.
  - apply truthy_nonempty.
  - discriminate.
Qed.

Lemma ft_link_of_container_raw (c : node) : raw_ft_link (ft_link_of_container c).
Proof.
  unfold raw_ft_link, ft_link_of_container.
  destruct (match Soup.name c with Some nm => nm =? "a" | None => false end);
    [| reflexivity].
  destruct (is_tool_path _) eqn:Hp; simpl; [assumption | reflexivity].
Qed.

Lemma ft_link_of_descendants_raw (c : node) (found : string * bool) :
  raw_ft_link found ->
  exists p, ft_link_of_descendants c found = Ok p /\ raw_ft_link p.
Proof.
  intros Hfound. unfold ft_link_of_descendants.
  destruct (snd found) eqn:Hs; simpl; [eauto |].
  destruct (Soup.find _ c) as [e |] eqn:Hf; [| eauto].
  apply find_sound in Hf. destruct Hf as [_ Hf].
  apply search_tag_href, ft_href_test_inv in Hf.
  destruct Hf as (h & Hh & Hp).
  unfold getitem_href. rewrite Hh. simpl.
  exists (h, true). split; [reflexivity | exact Hp].
Qed.

Lemma absolute_ft_link_stored (p : string * bool) :
  raw_ft_link p -> stored_ft_link (absolute_ft_link p).
Proof.
  unfold raw_ft_link, stored_ft_link, absolute_ft_link.
  destruct p as [ft [|]]; simpl; intros H.
  - rewrite (tool_path_starts_with_slash _ H). simpl. eauto.
  - assumption.
Qed.

(** Reading the directory link never raises, and stores either an
    absolute URL on the base origin or the sentinel. *)
Lemma extract_ft_link_stored (c : node) :
  exists p, extract_ft_link c = Ok p /\ stored_ft_link p.
Proof.
  unfold extract_ft_link.
  destruct (ft_link_of_descendants_raw c _ (ft_link_of_container_raw c))
    as (p & -> & Hp).
  simpl. eauto using absolute_ft_link_stored.
Qed.

(** The fallback loop over links that all carry an href never raises,
    and accepts only an external href other than the directory link. *)
Lemma fallback_website_link_spec (links : list node) (ft : string) :
  Forall (fun e => has_href (Soup.get_href e) = true) links ->
  exists r,
    fallback_website_link links ft = Ok r
    /\ match r with
       | Some href =>
           is_external_href href = true /\ href <> ft
           /\ exists e, In e links /\ Soup.get_href e = Some href
       | None => True
       end.
Proof.
  induction 1 as [| e links He _ IH]; simpl.
  { exists None. split; [reflexivity | exact I]. }
  apply has_href_inv in He. destruct He as [h Hh].
  unfold getitem_href. rewrite Hh. simpl.
  destruct (is_external_href h && negb (h =? ft)) eqn:Ht.
  - exists (Some h). split; [reflexivity |].
    apply andb_true_iff in Ht. destruct Ht as [Hx Hne].
    apply negb_true_iff, String.eqb_neq in Hne. eauto 6.
  - destruct IH as (r & -> & Hr). exists r. split; [reflexivity |].
    destruct r as [href |]; [| exact I].
    destruct Hr as (? & ? & e' & ? & ?). eauto 8.
Qed.

Lemma links_with_href (c : node) :
  Forall (fun e => has_href (Soup.get_href e) = true)
         (Soup.find_all link_with_href c).
Proof.
  apply Forall_forall. intros e He. now apply find_all_href in He.
Qed.

(** Reading the website link never raises, and stores either an href
    that passed the external test or the sentinel. *)
Lemma extract_website_link_stored (c : node) (ft : string) :
  exists p, extract_website_link c ft = Ok p /\ stored_website_link p.
Proof.
  unfold extract_website_link, stored_website_link.
  destruct (Soup.find _ c) as [e |].
  - destruct (PyStr.truthy _ && is_external_href _) eqn:Ht.
    + apply andb_true_iff in Ht. destruct Ht as [_ Ht].
      eexists. split; [reflexivity | exact Ht].
    + eexists. split; reflexivity.
  - destruct (fallback_website_link_spec _ ft (links_with_href c))
      as (r & -> & Hr). simpl.
    destruct r as [href |].
    + eexists. split; [reflexivity | apply Hr].
    + eexists. split; reflexivity.
Qed.

(** A pass over a container never raises; its locals are the fields
    extracted one after the other. *)
Lemma process_container_fields (summarizer : option TextSummarizer.pipeline)
    (c : node) :
  exists ft web,
    extract_ft_link c = Ok ft
    /\ extract_website_link c (fst ft) = Ok web
    /\ stored_ft_link ft
    /\ stored_website_link web
    /\ process_container summarizer c =
       Ok (let nm := extract_name c in
           let desc := extract_description c (fst nm) (snd nm) (fst ft) in
           Locals (fst nm) (fst web) (fst ft) (fst desc)
                  (summarize_description summarizer (fst desc) (snd desc))
                  (snd nm) (snd web) (snd ft) (snd desc)).
Proof.
  destruct (extract_ft_link_stored c) as (ft & Hft & Hs).
  destruct (extract_website_link_stored c (fst ft)) as (web & Hweb & Hw).
  exists ft, web. repeat split; try assumption.
  unfold process_container. rewrite Hft. simpl. rewrite Hweb. reflexivity.
Qed.

Lemma process_container_total (summarizer : option TextSummarizer.pipeline)
    (c : node) :
  exists l, process_container summarizer c = Ok l.
Proof.
  destruct (process_container_fields summarizer c) as (? & ? & _ & _ & _ & _ & H).
  eauto.
Qed.

End Fields.

(** ** The loop over the containers and the whole run *)

Section Run.

Import FuturetoolsParser Invariants.

Variable summarizer : option TextSummarizer.pipeline.

(** The loop never raises: it folds the bookkeeping over the locals of
    the containers. *)
Lemma process_containers_fold (n : nat) (cs : list node) :
  forall st,
  exists ls,
    locals_of summarizer cs ls
    /\ process_containers summarizer n cs st
       = Ok (fold_left (update_counts n) ls st).
Proof.
  induction cs as [| c cs IH]; intros st; simpl.
  - exists []. split; [constructor | reflexivity].
  - destruct (process_container_total summarizer c) as [l Hl].
    rewrite Hl. simpl.
    destruct (IH (update_counts n st l)) as (ls & Hls & ->).
    exists (l :: ls). split; [now constructor | reflexivity].
Qed.

Lemma tools_found_update (n : nat) (st : state) (l : locals) :
  tools_found (update_counts n st l)
  = tools_found st ++ (if accepted l then [tool_of l] else []).
Proof.
  unfold update_counts.
  destruct (accepted l); [reflexivity |].
  rewrite app_nil_r.
  destruct (current_tool_has_name l); [reflexivity |].
  now destruct (0 <? n)%nat.
Qed.

(** The list of tools is the accepted locals, in the order of the
    containers. *)
Lemma tools_found_fold (n : nat) (ls : list locals) :
  forall st,
    tools_found (fold_left (update_counts n) ls st)
    = tools_found st ++ map tool_of (filter accepted ls).
Proof.
  induction ls as [| l ls IH]; intros st; simpl.
  - now rewrite app_nil_r.
  - rewrite IH, tools_found_update, <- app_assoc.
    now destruct (accepted l).
Qed.

Lemma accepted_tools_forall (P : Tool.t -> Prop) (cs : list node)
    (ls : list locals) :
  (forall c l,
      process_container summarizer c = Ok l ->
      accepted l = true -> P (tool_of l)) ->
  locals_of summarizer cs ls ->
  Forall P (map tool_of (filter accepted ls)).
Proof.
  intros HP. induction 1 as [| c l cs ls Hl _ IH]; simpl; [constructor |].
  destruct (accepted l) eqn:Hacc; simpl; [| assumption].
  constructor; [eauto | assumption].
Qed.

Variable fetch_and_parse_website : string -> option page_data.
Variable url : string.

Lemma extract_tools_run_outcome :
  run_outcome summarizer fetch_and_parse_website url.
Proof.
  destruct (fetch_and_parse_website url) as [parsed_data |] eqn:Hfetch.
  - destruct (pd_soup parsed_data) as [soup |] eqn:Hsoup.
    + destruct (discover_containers soup) as [| c cs] eqn:Hcs.
      * apply (no_containers _ _ _ parsed_data soup); try assumption.
        unfold extract_tools_run. now rewrite Hfetch, Hsoup, Hcs.
      * destruct (process_containers_fold (List.length (c :: cs)) (c :: cs)
                    initial_state) as (ls & Hls & Hrun).
        apply (containers_processed _ _ _ parsed_data soup ls); try assumption.
        -- rewrite Hcs. discriminate.
        -- now rewrite Hcs.
        -- unfold extract_tools_run. rewrite Hfetch, Hsoup, Hcs, Hrun.
           simpl bind. now rewrite tools_found_fold.
    + apply (soup_missing _ _ _ parsed_data); try assumption.
      unfold extract_tools_run. now rewrite Hfetch, Hsoup.
  - apply fetch_failed; try assumption.
    unfold extract_tools_run. now rewrite Hfetch.
Qed.

(** Whatever the fetcher hands back and whatever the document holds,
    the extraction returns a list. *)
Lemma extract_never_raises :
  exists tools r,
    extract_tools_run fetch_and_parse_website summarizer url = Ok (tools, r)
    /\ extract_tools_from_futuretools fetch_and_parse_website summarizer url
       = Ok tools.
Proof.
  unfold extract_tools_from_futuretools.
  destruct extract_tools_run_outcome as
    [_ H | ? _ _ H | ? ? _ _ _ H | ? ? ? _ _ _ _ H];
    rewrite H; simpl; eauto.
Qed.

(** A property of the tool of every accepted container holds of every
    tool returned. *)
Lemma extracted_tools_forall (P : Tool.t -> Prop) :
  (forall c l,
      process_container summarizer c = Ok l ->
      accepted l = true -> P (tool_of l)) ->
  exists tools,
    extract_tools_from_futuretools fetch_and_parse_website summarizer url
    = Ok tools
    /\ Forall P tools.
Proof.
  intros HP. unfold extract_tools_from_futuretools.
  destruct extract_tools_run_outcome as
    [_ H | ? _ _ H | ? ? _ _ _ H | pd soup ls _ _ _ Hls H];
    rewrite H; simpl; eexists; (split; [reflexivity |]);
    eauto using accepted_tools_forall.
Qed.

End Run.

(** ** The records returned *)

Section Records.

Import FuturetoolsParser Invariants.

Lemma accepted_locals_named_and_linked
    (summarizer : option TextSummarizer.pipeline) (c : node) (l : locals) :
  process_container summarizer c = Ok l ->
  accepted l = true ->
  name l <> ""
  /\ (website_link l <> NA \/ futuretools_link_internal l <> NA).
Proof.
  intros Hl Hacc.
  destruct (process_container_fields summarizer c)
    as (ft & web & _ & _ & Hft & Hweb & Heq).
  rewrite Heq in Hl. injection Hl as <-.
  unfold accepted in Hacc. cbn in *.
  apply andb_true_iff in Hacc. destruct Hacc as [Hname Hlink].
  split; [now apply extract_name_nonempty |].
  unfold stored_ft_link in Hft. unfold stored_website_link in Hweb.
  apply orb_true_iff in Hlink. destruct Hlink as [Hw | Hf].
  - rewrite Hw in Hweb. left. now apply external_href_not_NA.
  - rewrite Hf in Hft. destruct Hft as (h & _ & ->).
    right. apply base_prefixed_not_NA.
Qed.

(** C1.  Every tool in the list returned by
    [extract_tools_from_futuretools] has a non-empty name, and its
    website link or its futuretools link is not the sentinel "N/A".
    The extraction returns such a list for every fetcher, summarizer
    and URL. *)
Theorem extracted_tools_named_and_linked
    (fetch_and_parse_website : string -> option page_data)
    (summarizer : option TextSummarizer.pipeline) (url : string) :
  exists tools,
    extract_tools_from_futuretools fetch_and_parse_website summarizer url
    = Ok tools
    /\ Forall (fun t =>
                 Tool.name t <> ""
                 /\ (Tool.website_link t <> "N/A"
                     \/ Tool.futuretools_link t <> "N/A"))
              tools.
Proof.
  apply extracted_tools_forall.
  intros c l Hl Hacc.
  exact (accepted_locals_named_and_linked summarizer c l Hl Hacc).
Qed.

Lemma extracted_tools_named_and_linked_witness :
  exists tools,
    extract_tools_from_futuretools
      (Samples.fetch_page [Samples.card_acme; Samples.card_nameless;
                           Samples.card_long_description])
      (Some Samples.fixed_pipeline) "https://www.futuretools.io/"
    = Ok tools
    /\ Forall (fun t =>
                 Tool.name t <> ""
                 /\ (Tool.website_link t <> "N/A"
                     \/ Tool.futuretools_link t <> "N/A"))
              tools.
Proof.
  apply (extracted_tools_named_and_linked
           (Samples.fetch_page [Samples.card_acme; Samples.card_nameless;
                                Samples.card_long_description])
           (Some Samples.fixed_pipeline) "https://www.futuretools.io/").
Defined.

(** The list returned for that page: the card without a name is left out,
    the 31-word description is summarized. *)
Example extraction_of_three_cards :
  extract_tools_from_futuretools
    (Samples.fetch_page [Samples.card_acme; Samples.card_nameless;
                         Samples.card_long_description])
    (Some Samples.fixed_pipeline) "https://www.futuretools.io/"
  = Ok [ Tool.Build "Acme" "N/A" "https://www.futuretools.io/tool/acme-ai"
                    "" "N/A";
         Tool.Build "Acme" "https://acme.example/" "N/A"
                    Samples.long_description "A short brief." ].
Proof. vm_compute. reflexivity. Qed.

Lemma filter_none {A : Type} (f : A -> bool) (l : list A) :
  forallb (fun x => negb (f x)) l = true -> filter f l = [].
Proof.
  induction l as [| x l IH]; simpl; [reflexivity |].
  intros H. apply andb_true_iff in H. destruct H as [Hx Hl].
  apply negb_true_iff in Hx. rewrite Hx. auto.
Qed.

Lemma forallb_weaken {A : Type} (f g : A -> bool) (l : list A) :
  (forall x, f x = true -> g x = true) ->
  forallb f l = true -> forallb g l = true.
Proof.
  intros Hfg. rewrite !forallb_forall. auto.
Qed.

(** C2, as the code has it.  When the fetcher returns no data, or when
    no element of the document has a class attribute containing
    "tool-card", "item" or "collection-item", the extraction does not
    raise: it returns the empty list.  The run prints why it stopped, the
    failed fetch in the first case and the want of containers in the
    second, and no tally: it returns before the counts exist. *)
Theorem extract_degenerate_input_no_tally
    (fetch_and_parse_website : string -> option page_data)
    (summarizer : option TextSummarizer.pipeline) (url : string) :
  (fetch_and_parse_website url = None
   \/ exists parsed_data soup,
        fetch_and_parse_website url = Some parsed_data
        /\ pd_soup parsed_data = Some soup
        /\ forallb (fun n =>
                      negb (Soup.class_contains "tool-card" n)
                      && negb (Soup.class_contains "item" n)
                      && negb (Soup.class_contains "collection-item" n))
                   (Soup.descendants soup) = true) ->
  extract_tools_from_futuretools fetch_and_parse_website summarizer url = Ok []
  /\ exists r,
       extract_tools_run fetch_and_parse_website summarizer url = Ok ([], r)
       /\ ((fetch_and_parse_website url = None /\ r = FetchFailed)
           \/ (fetch_and_parse_website url <> None /\ r = NoContainers))
       /\ forall n c, r <> ParsingSummary n c.
Proof.
  intros [Hnone | (parsed_data & soup & Hfetch & Hsoup & Hall)];
    unfold extract_tools_from_futuretools, extract_tools_run.
  - rewrite Hnone. simpl. split; [reflexivity |].
    exists FetchFailed. split; [reflexivity |].
    split; [now left | discriminate].
  - rewrite Hfetch, Hsoup.
    assert (Hcs : discover_containers soup = []).
    { unfold discover_containers, Soup.select.
      rewrite (filter_none _ (Soup.descendants soup)).
      - apply filter_none. revert Hall. apply forallb_weaken.
        intros n Hn. simpl.
        apply andb_true_iff in Hn. destruct Hn as [Hn H3].
        apply andb_true_iff in Hn. destruct Hn as [_ H2].
        apply negb_true_iff in H2, H3. rewrite H2, H3.
        now rewrite andb_false_r.
      - revert Hall. apply forallb_weaken.
        intros n Hn. simpl.
        apply andb_true_iff in Hn. destruct Hn as [Hn _].
        apply andb_true_iff in Hn. destruct Hn as [H1 _].
        apply negb_true_iff in H1. rewrite H1.
        now rewrite andb_false_r. }
    rewrite Hcs. simpl. split; [reflexivity |].
    exists NoContainers. split; [reflexivity |].
    split; [right; split; [discriminate | reflexivity] | discriminate].
Qed.

Lemma extract_degenerate_input_no_tally_witness :
  extract_tools_from_futuretools Samples.fetch_nothing None "https://www.futuretools.io/"
  = Ok []
  /\ extract_tools_from_futuretools
       (fun _ => Some (PageData "" [] [] (Some Samples.plain_document)))
       (Some Samples.fixed_pipeline) "https://www.futuretools.io/"
     = Ok [].
Proof.
  split.
  - apply (extract_degenerate_input_no_tally Samples.fetch_nothing None).
    left. reflexivity.
  - apply (extract_degenerate_input_no_tally
             (fun _ => Some (PageData "" [] [] (Some Samples.plain_document)))).
    right. exists (PageData "" [] [] (Some Samples.plain_document)),
             Samples.plain_document.
    split; [reflexivity |]. split; [reflexivity |]. vm_compute. reflexivity.
Defined.

(** On a failed fetch, and on a document without containers, the run
    returns the empty list with the message of its early return, and no
    tally of zero containers. *)
Lemma degenerate_run_prints_no_tally_counterexample :
  extract_tools_run Samples.fetch_nothing None "https://www.futuretools.io/"
  = Ok ([], FetchFailed)
  /\ extract_tools_run
       (fun _ => Some (PageData "" [] [] (Some Samples.plain_document)))
       None "https://www.futuretools.io/"
     = Ok ([], NoContainers)
  /\ ~ (exists c,
          extract_tools_run Samples.fetch_nothing None
                            "https://www.futuretools.io/"
          = Ok ([], ParsingSummary 0 c))
  /\ ~ (exists c,
          extract_tools_run
            (fun _ => Some (PageData "" [] [] (Some Samples.plain_document)))
            None "https://www.futuretools.io/"
          = Ok ([], ParsingSummary 0 c)).
Proof.
  split; [reflexivity |]. split; [reflexivity |].
  split; intros [c Hc]; vm_compute in Hc; discriminate Hc.
Qed.

(** A parsing summary is printed only by a run over at least one
    container: the branch of the summary for no container is never
    reached. *)
Lemma parsing_summary_has_containers
    (fetch_and_parse_website : string -> option page_data)
    (summarizer : option TextSummarizer.pipeline) (url : string)
    (tools : list Tool.t) (n : nat) (c : counters) :
  extract_tools_run fetch_and_parse_website summarizer url
  = Ok (tools, ParsingSummary n c) ->
  (0 < n)%nat.
Proof.
  intros Hrun.
  destruct (extract_tools_run_outcome summarizer fetch_and_parse_website url)
    as [_ H | ? _ _ H | ? ? _ _ _ H | parsed_data soup ls _ _ Hne _ H];
    rewrite H in Hrun; try discriminate Hrun.
  injection Hrun as _ <- _.
  destruct (discover_containers soup); [congruence | simpl; lia].
Qed.

End Records.

(** ** The two links *)

Section Links.

Import FuturetoolsParser Invariants.


Lemma find_all_is_link (c e : node) :
  In e (Soup.find_all link_with_href c) ->
  In e (Soup.descendants c) /\ Soup.name e = Some "a".
Proof.
  unfold Soup.find_all. rewrite filter_In. intros [Hin Hs].
  split; [assumption |].
  destruct e as [s | nm cl h kids]; simpl in *; [discriminate |].
  apply andb_true_iff in Hs. destruct Hs as [Hs _].
  apply andb_true_iff in Hs. destruct Hs as [Hs _].
  unfold PyStr.mem in Hs. simpl in Hs. rewrite orb_false_r in Hs.
  apply String.eqb_eq in Hs. now subst.
Qed.






(** On the sample card without a class-marked link the fallback takes the
    first link that leaves the site. *)
Example fallback_website_link_taken :
  exists l,
    process_container None Samples.card_long_description = Ok l
    /\ Soup.find marked_link Samples.card_long_description = None
    /\ website_link l = "https://acme.example/"
    /\ current_tool_has_website_link l = true.
Proof. eexists. split; [vm_compute; reflexivity |]. repeat split. Qed.

(** On the sample card whose class-marked button points back to the
    directory, the website link stays unresolved although another link
    leaves the site. *)
Example same_domain_candidate_not_substituted :
  exists l,
    process_container None Samples.card_same_domain = Ok l
    /\ website_link l = "N/A"
    /\ current_tool_has_website_link l = false
    /\ futuretools_link_internal l = "https://www.futuretools.io/tool/acme-ai".
Proof. eexists. split; [vm_compute; reflexivity |]. repeat split. Qed.


End Links.

Section DirectoryLink.

Import FuturetoolsParser Invariants.

Lemma ft_link_of_link_container (c : node) (h : string) :
  Soup.name c = Some "a" ->
  Soup.get_href c = Some h ->
  is_tool_path h = true ->
  ft_link_of_container c = (h, true).
Proof.
  unfold ft_link_of_container. intros -> -> ->. reflexivity.
Qed.

Lemma ft_link_of_other_container (c : node) :
  ~ (Soup.name c = Some "a"
     /\ exists h, Soup.get_href c = Some h /\ is_tool_path h = true) ->
  ft_link_of_container c = (NA, false).
Proof.
  unfold ft_link_of_container. intros Hnot.
  destruct (Soup.name c) as [nm |]; [| reflexivity].
  destruct (nm =? "a") eqn:Hnm; [| reflexivity].
  apply String.eqb_eq in Hnm. subst nm.
  destruct (Soup.get_href c) as [h |]; [| reflexivity].
  destruct (is_tool_path h) eqn:Hp; [| reflexivity].
  exfalso. apply Hnot. eauto.
Qed.

Lemma extract_ft_link_relative (c : node) (h : string) :
  is_tool_path h = true ->
  (Soup.name c = Some "a" /\ Soup.get_href c = Some h)
  \/ (~ (Soup.name c = Some "a"
         /\ exists h', Soup.get_href c = Some h' /\ is_tool_path h' = true)
      /\ exists e, Soup.find tool_path_link c = Some e
                   /\ Soup.get_href e = Some h) ->
  extract_ft_link c = Ok ((base_url_ft ++ h)%string, true).
Proof.
  intros Hp Hsrc. unfold extract_ft_link, ft_link_of_descendants.
  assert (Habs : absolute_ft_link (h, true) = ((base_url_ft ++ h)%string, true)).
  { unfold absolute_ft_link. simpl.
    now rewrite (tool_path_starts_with_slash _ Hp). }
  destruct Hsrc as [[Hname Hhref] | [Hnot (e & Hfind & Hhref)]].
  - rewrite (ft_link_of_link_container c h Hname Hhref Hp). simpl.
    now rewrite Habs.
  - rewrite (ft_link_of_other_container c Hnot). simpl.
    rewrite Hfind.
    unfold getitem_href. rewrite Hhref. simpl. now rewrite Habs.
Qed.

(** C5.  When the directory link of a container resolves to a relative
    path [h] that starts with "/tool/" or "/tools/" (the href of the
    container itself when it is a link, otherwise the href of the first
    link below it with such an href), the pass stores
    "https://www.futuretools.io" followed by [h] as the futuretools
    link, in the locals and in the tool dictionary built from them. *)
Theorem relative_directory_link_made_absolute
    (summarizer : option TextSummarizer.pipeline) (c : node) (h : string) :
  (PyStr.startswith h "/tool/" = true \/ PyStr.startswith h "/tools/" = true) ->
  ((Soup.name c = Some "a" /\ Soup.get_href c = Some h)
   \/ (~ (Soup.name c = Some "a"
          /\ exists h', Soup.get_href c = Some h' /\ is_tool_path h' = true)
       /\ exists e, Soup.find tool_path_link c = Some e
                    /\ Soup.get_href e = Some h)) ->
  exists l,
    process_container summarizer c = Ok l
    /\ current_tool_has_ft_link l = true
    /\ futuretools_link_internal l = ("https://www.futuretools.io" ++ h)%string
    /\ Tool.futuretools_link (tool_of l)
       = ("https://www.futuretools.io" ++ h)%string.
Proof.
  intros Hprefix Hsrc.
  assert (Hp : is_tool_path h = true).
  { unfold is_tool_path. apply orb_true_iff. exact Hprefix. }
  destruct (process_container_fields summarizer c)
    as (ft & web & Hft & _ & _ & _ & Heq).
  rewrite (extract_ft_link_relative c h Hp Hsrc) in Hft.
  injection Hft as <-.
  eexists. split; [exact Heq |]. cbn. auto.
Qed.

Lemma relative_directory_link_made_absolute_witness :
  exists l,
    process_container None Samples.card_acme = Ok l
    /\ current_tool_has_ft_link l = true
    /\ futuretools_link_internal l = "https://www.futuretools.io/tool/acme-ai"
    /\ Tool.futuretools_link (tool_of l)
       = "https://www.futuretools.io/tool/acme-ai".
Proof.
  apply (relative_directory_link_made_absolute None Samples.card_acme
           "/tool/acme-ai").
  - left. reflexivity.
  - right. split.
    + intros [Hname _]. discriminate Hname.
    + exists (Tag "a" None (Some "/tool/acme-ai") [Samples.text "x"]).
      split; reflexivity.
Defined.

End DirectoryLink.

(** ** The name chain *)

Section NameChain.

Import FuturetoolsParser Invariants.

(** The loop passes over the selectors that find nothing and stops at
    the first that finds an element; only under the last key is an
    element without text passed over. *)
Lemma name_element_loop_first_found (c : node)
    (pre post : list (selector_key * Soup.strainer))
    (key : selector_key) (st : Soup.strainer) (e : node) :
  Forall (fun ks => Soup.find (snd ks) c = None) pre ->
  Soup.find st c = Some e ->
  name_element_loop (pre ++ (key, st) :: post) c
  = if is_first_link_text key && negb (PyStr.truthy (Soup.get_text "" e))
    then name_element_loop post c
    else Some e.
Proof.
  intros Hpre Hfind.
  induction Hpre as [| [k s] pre Hnone _ IH]; simpl.
  - rewrite Hfind. now destruct (is_first_link_text key), (PyStr.truthy _).
  - simpl in Hnone. now rewrite Hnone.
Qed.

Lemma name_element_loop_none (c : node)
    (selectors : list (selector_key * Soup.strainer)) :
  Forall (fun ks => Soup.find (snd ks) c = None) selectors ->
  name_element_loop selectors c = None.
Proof.
  induction 1 as [| [k s] selectors Hnone _ IH]; simpl; [reflexivity |].
  simpl in Hnone. now rewrite Hnone.
Qed.

(** With no heading and no link below the container the name is left
    unresolved. *)
Lemma extract_name_nothing_found (c : node) :
  Forall (fun ks => Soup.find (snd ks) c = None) name_element_selectors ->
  extract_name c = (NA, false).
Proof.
  intros H. unfold extract_name. now rewrite (name_element_loop_none c _ H).
Qed.

(** C4, as the code has it.  The selectors are tried in order (class-hinted
    heading, any heading, class-hinted link, first link) and the chain
    ends at the first selector that finds an element.  An element found
    under one of the first three selectors is the name element even when
    its trimmed text is empty, and the name is then unresolved; only
    under the last selector is an element with empty trimmed text
    disqualified, and the name is unresolved as well. *)
Theorem name_chain_ends_at_first_found (c : node)
    (pre post : list (selector_key * Soup.strainer))
    (key : selector_key) (st : Soup.strainer) (e : node) :
  name_element_selectors = pre ++ (key, st) :: post ->
  Forall (fun ks => Soup.find (snd ks) c = None) pre ->
  Soup.find st c = Some e ->
  extract_name c
  = if is_first_link_text key && negb (PyStr.truthy (Soup.get_text "" e))
    then ("N/A", false)
    else (Soup.get_text "" e, PyStr.truthy (Soup.get_text "" e)).
Proof.
  intros Hsel Hpre Hfind. unfold extract_name.
  rewrite Hsel, (name_element_loop_first_found c pre post key st e Hpre Hfind).
  destruct (is_first_link_text key) eqn:Hkey; simpl; [| reflexivity].
  destruct (PyStr.truthy (Soup.get_text "" e)) eqn:Ht; simpl;
    [now rewrite Ht |].
  assert (Hpost : post = []).
  { unfold name_element_selectors in Hsel.
    destruct pre as [| p1 [| p2 [| p3 [| p4 pre]]]];
      injection Hsel as; subst; try discriminate Hkey; try reflexivity.
    destruct pre; discriminate. }
  now rewrite Hpost.
Qed.

Lemma name_chain_ends_at_first_found_witness :
  extract_name Samples.card_empty_heading = ("", false).
Proof.
  apply (name_chain_ends_at_first_found Samples.card_empty_heading
           [] (tl name_element_selectors) primary
           (Soup.Strainer ["h2"; "h3"; "h4"]
                          (Some ["tool-name"; "tool-title"; "card-title"]) None)
           (Tag "h3" (Some ["tool-name"]) None [Samples.text "  "])).
  - reflexivity.
  - constructor.
  - reflexivity.
Defined.

(** On the sample card the class-hinted heading is found first and its
    trimmed text is empty: the code leaves the name unresolved, whereas
    the chain that goes on to the next fallback takes the name from the
    link. *)
Lemma empty_candidate_ends_chain_counterexample :
  Soup.find (Soup.Strainer ["h2"; "h3"; "h4"]
                           (Some ["tool-name"; "tool-title"; "card-title"]) None)
            Samples.card_empty_heading
  = Some (Tag "h3" (Some ["tool-name"]) None [Samples.text "  "])
  /\ extract_name Samples.card_empty_heading = ("", false)
  /\ Specified.extract_name Samples.card_empty_heading = ("Acme", true)
  /\ ~ (forall c, extract_name c = Specified.extract_name c).
Proof.
  split; [reflexivity |]. split; [reflexivity |]. split; [reflexivity |].
  intros H. specialize (H Samples.card_empty_heading). discriminate H.
Qed.

End NameChain.

(** ** The summarization hook *)

Section Summarization.

Import FuturetoolsParser Invariants TextSummarizer.

(** The summarized description of every container, by cases on the
    description found. *)
Lemma summarization_hook (summarizer : option pipeline) (c : node) :
  exists l,
    process_container summarizer c = Ok l
    /\ summarized_description l
       = if current_tool_has_description l
         then if (30 <? List.length (PyStr.split (description l)))%nat
              then summarize_text summarizer (PyStr (description l)) 50 15
              else description l
         else "N/A".
Proof.
  destruct (process_container_fields summarizer c)
    as (ft & web & _ & _ & _ & _ & Heq).
  eexists. split; [exact Heq |].
  cbv zeta.
  cbn [summarized_description current_tool_has_description description].
  unfold summarize_description.
  destruct (snd (extract_description _ _ _ _)); cbn [andb]; [| reflexivity].
  destruct (30 <? _)%nat; reflexivity.
Qed.

(** C6, at the failing input.  On the sample card the class-marked
    description element is empty and the text of the card is too short
    to stand in: no description is resolved, [description] is left empty
    and [summarized_description] is the sentinel, so the two differ in
    the tool returned. *)
Theorem empty_description_element_leaves_fields_apart
    (summarizer : option pipeline) :
  exists l,
    process_container summarizer Samples.card_acme = Ok l
    /\ current_tool_has_description l = false
    /\ description l = ""
    /\ summarized_description l = "N/A"
    /\ extract_tools_from_futuretools
         (Samples.fetch_page [Samples.card_acme]) summarizer
         "https://www.futuretools.io/"
       = Ok [ Tool.Build "Acme" "N/A" "https://www.futuretools.io/tool/acme-ai"
                         "" "N/A" ].
Proof.
  eexists. split; [vm_compute; reflexivity |]. cbn.
  repeat split.
Qed.

(** C7, as the code has it.  With the pipeline not initialized no pass
    over a container and no extraction raises, and the summarized
    description of a resolved description is the fixed message of the
    disabled summarizer when the description has more than 30 words, the
    description itself when it has at most 30. *)
Theorem disabled_summarizer_stand_in :
  (forall c : node,
      exists l,
        process_container None c = Ok l
        /\ summarized_description l
           = if current_tool_has_description l
             then if (30 <? List.length (PyStr.split (description l)))%nat
                  then "Summarization pipeline not initialized. Please check installation and logs."
                  else description l
             else "N/A")
  /\ (forall (fetch_and_parse_website : string -> option page_data)
             (url : string),
         exists tools,
           extract_tools_from_futuretools fetch_and_parse_website None url
           = Ok tools).
Proof.
  split.
  - intros c. destruct (summarization_hook None c) as (l & Hl & Hs).
    exists l. split; [exact Hl |]. exact Hs.
  - intros fetch_and_parse_website url.
    destruct (extract_never_raises None fetch_and_parse_website url)
      as (tools & r & _ & H).
    eauto.
Qed.

Lemma disabled_summarizer_stand_in_witness :
  exists l,
    process_container None Samples.card_long_description = Ok l
    /\ summarized_description l
       = if current_tool_has_description l
         then if (30 <? List.length (PyStr.split (description l)))%nat
              then "Summarization pipeline not initialized. Please check installation and logs."
              else description l
         else "N/A".
Proof.
  destruct disabled_summarizer_stand_in as [Hcontainer _].
  exact (Hcontainer Samples.card_long_description).
Defined.

(** On the sample card with a description of 31 words and the pipeline
    not initialized, the summarized description is the message of the
    disabled summarizer, not the description. *)
Lemma disabled_summarizer_counterexample :
  exists l,
    process_container None Samples.card_long_description = Ok l
    /\ current_tool_has_description l = true
    /\ description l = Samples.long_description
    /\ summarized_description l
       = "Summarization pipeline not initialized. Please check installation and logs."
    /\ summarized_description l <> description l.
Proof.
  eexists. split; [vm_compute; reflexivity |]. cbn.
  repeat split. discriminate.
Qed.

End Summarization.

(** ** The counts *)

Section Tally.

Import FuturetoolsParser Invariants.

Lemma count_cons (f : locals -> bool) (l : locals) (ls : list locals) :
  count f (l :: ls) = ((if f l then 1 else 0) + count f ls)%nat.
Proof. unfold count. simpl. now destruct (f l). Qed.

(** A container without a name touches none of the three per-field
    counts and adds one to the count of missing names. *)
Lemma nameless_container_counts (n : nat) (st : state) (l : locals) :
  (0 < n)%nat ->
  current_tool_has_name l = false ->
  let c := counts st in
  let c' := counts (update_counts n st l) in
  missing_website_links_count c' = missing_website_links_count c
  /\ missing_ft_links_count c' = missing_ft_links_count c
  /\ missing_descriptions_count c' = missing_descriptions_count c
  /\ missing_names_count c' = S (missing_names_count c)
  /\ processed_tools_count c' = processed_tools_count c.
Proof.
  intros Hn Hname. unfold update_counts, accepted. rewrite Hname. simpl.
  apply Nat.ltb_lt in Hn. rewrite Hn. simpl. auto.
Qed.

(** The counts that follow the acceptance test, over a whole list. *)
Lemma counts_fold (n : nat) (ls : list locals) :
  (0 < n)%nat ->
  forall st,
    let c := counts st in
    let c' := counts (fold_left (update_counts n) ls st) in
    processed_tools_count c'
    = (processed_tools_count c + count accepted ls)%nat
    /\ missing_names_count c'
       = (missing_names_count c
          + count (fun l => negb (current_tool_has_name l)) ls)%nat
    /\ missing_descriptions_count c'
       = (missing_descriptions_count c
          + count (fun l => accepted l && negb (current_tool_has_description l))
                  ls)%nat.
Proof.
  intros Hn. apply Nat.ltb_lt in Hn.
  induction ls as [| l ls IH]; intros st; cbv zeta.
  - unfold count. simpl. now rewrite !Nat.add_0_r.
  - simpl fold_left. specialize (IH (update_counts n st l)). cbv zeta in IH.
    destruct IH as (Hp & Hm & Hd). rewrite Hp, Hm, Hd, !count_cons.
    unfold update_counts, accepted, incr_unless.
    destruct (current_tool_has_name l), (current_tool_has_website_link l),
      (current_tool_has_ft_link l), (current_tool_has_description l);
      simpl; rewrite ?Hn; simpl; repeat split; lia.
Qed.

(** C8, as the code has it.  When the run ends with its parsing summary
    over [n] containers, the count of processed tools is the number of
    accepted containers, the count of missing descriptions is the number
    of accepted containers without a description, and the count of
    missing names is the number of containers that yielded no name; a
    container without a name changes none of the three per-field counts
    and adds one to the count of missing names. *)
Theorem tally_follows_acceptance
    (fetch_and_parse_website : string -> option page_data)
    (summarizer : option TextSummarizer.pipeline) (url : string)
    (tools : list Tool.t) (n : nat) (c : counters) :
  extract_tools_run fetch_and_parse_website summarizer url
  = Ok (tools, ParsingSummary n c) ->
  exists parsed_data soup ls,
    fetch_and_parse_website url = Some parsed_data
    /\ pd_soup parsed_data = Some soup
    /\ locals_of summarizer (discover_containers soup) ls
    /\ n = List.length ls
    /\ tools = map tool_of (filter accepted ls)
    /\ processed_tools_count c = count accepted ls
    /\ missing_descriptions_count c
       = count (fun l => accepted l && negb (current_tool_has_description l)) ls
    /\ missing_names_count c
       = count (fun l => negb (current_tool_has_name l)) ls
    /\ forall st l,
         current_tool_has_name l = false ->
         let c0 := counts st in
         let c1 := counts (update_counts n st l) in
         missing_website_links_count c1 = missing_website_links_count c0
         /\ missing_ft_links_count c1 = missing_ft_links_count c0
         /\ missing_descriptions_count c1 = missing_descriptions_count c0
         /\ missing_names_count c1 = S (missing_names_count c0).
Proof.
  intros Hrun.
  destruct (extract_tools_run_outcome summarizer fetch_and_parse_website url)
    as [_ H | ? _ _ H | ? ? _ _ _ H | parsed_data soup ls Hfetch Hsoup Hne Hls H];
    rewrite H in Hrun; try discriminate Hrun.
  injection Hrun as <- <- <-.
  assert (Hlen : List.length (discover_containers soup) = List.length ls)
    by (eapply Forall2_length; exact Hls).
  assert (Hpos : (0 < List.length (discover_containers soup))%nat).
  { destruct (discover_containers soup); [congruence | simpl; lia]. }
  destruct (counts_fold _ ls Hpos initial_state) as (Hp & Hm & Hd).
  exists parsed_data, soup, ls.
  split; [exact Hfetch |]. split; [exact Hsoup |]. split; [exact Hls |].
  split; [exact Hlen |]. split; [reflexivity |].
  split; [exact Hp |]. split; [exact Hd |]. split; [exact Hm |].
  intros st l Hname.
  destruct (nameless_container_counts _ st l Hpos Hname)
    as (? & ? & ? & ? & _).
  auto.
Qed.

Lemma tally_follows_acceptance_witness :
  exists ls,
    List.length ls = 2
    /\ count accepted ls = 1
    /\ count (fun l => negb (current_tool_has_name l)) ls = 1
    /\ count (fun l => accepted l && negb (current_tool_has_description l)) ls
       = 1.
Proof.
  destruct (tally_follows_acceptance
              (Samples.fetch_page [Samples.card_acme; Samples.card_nameless])
              None "https://www.futuretools.io/"
              [ Tool.Build "Acme" "N/A" "https://www.futuretools.io/tool/acme-ai"
                           "" "N/A" ]
              2 (Counters 1 1 1 0 1))
    as (parsed_data & soup & ls & _ & _ & _ & Hn & _ & Hp & Hd & Hm & _).
  - vm_compute. reflexivity.
  - exists ls. simpl in *. auto.
Defined.

(** On a page of two cards, one accepted and one without a name, a tool
    is returned and yet the count of missing names, and the number
    printed for it, is 1. *)
Lemma missing_names_counterexample :
  exists tool c,
    extract_tools_run
      (Samples.fetch_page [Samples.card_acme; Samples.card_nameless])
      None "https://www.futuretools.io/"
    = Ok ([tool], ParsingSummary 2 c)
    /\ processed_tools_count c = 1
    /\ missing_names_count c = 1
    /\ reported_missing_names 2 c = 1.
Proof.
  do 2 eexists. split; [vm_compute; reflexivity |]. repeat split.
Qed.

(** On a page of two cards, one accepted and one with a name and no
    usable link, the rejected card is added to both link counts. *)
Example rejected_named_container_in_link_counts :
  exists tool c,
    extract_tools_run
      (Samples.fetch_page [Samples.card_acme; Samples.card_linkless])
      None "https://www.futuretools.io/"
    = Ok ([tool], ParsingSummary 2 c)
    /\ Tool.futuretools_link tool <> "N/A"
    /\ missing_website_links_count c = 2
    /\ missing_ft_links_count c = 1.
Proof.
  do 2 eexists. split; [vm_compute; reflexivity |].
  repeat split. discriminate.
Qed.

End Tally.

(** ** The presenters on a fetched page *)

Section Presenter.

Import InformationOrganizer.

(** The list format says so when a page has no links, and when it has
    no videos. *)
Lemma list_format_reports_empty_collections (page : page_data) :
  (pd_links page = [] ->
   In (nl ++ "No hyperlinks extracted.")%string (page_list_lines page))
  /\ (pd_youtube_videos page = [] ->
      In (nl ++ "No YouTube videos identified.")%string (page_list_lines page)).
Proof.
  unfold page_list_lines. split; intros ->.
  - apply in_or_app. right. apply in_or_app. left. now left.
  - apply in_or_app. right. apply in_or_app. right. now left.
Qed.

(** The paragraph format of a page with neither links nor videos is the
    heading and the paragraph about the text, nothing else. *)
Lemma paragraph_format_of_bare_page
    (text_summarizer_pipeline : option TextSummarizer.pipeline)
    (page : page_data) :
  pd_links page = [] ->
  pd_youtube_videos page = [] ->
  exists text_paragraph,
    page_paragraphs text_summarizer_pipeline page
    = ["--- Website Content (Paragraph Format) ---"; text_paragraph]
    /\ format_data_as_paragraphs text_summarizer_pipeline (DataPage page)
                                 "generic_website"
       = Ok ("--- Website Content (Paragraph Format) ---" ++ nl ++ nl
             ++ text_paragraph)%string.
Proof.
  intros Hlinks Hvideos. unfold format_data_as_paragraphs, page_paragraphs.
  rewrite Hlinks, Hvideos. simpl. eauto.
Qed.

(** C9, at the failing input.  For a fetched page with no text, no
    links and no videos the list format prints a line for the missing
    links and one for the missing videos, and the paragraph format
    prints neither: its output is the heading and the line about the
    text. *)
Theorem paragraph_format_omits_empty_collections
    (text_summarizer_pipeline : option TextSummarizer.pipeline) :
  format_data_as_list (DataPage Samples.bare_page) "generic_website"
  = Ok ("--- Website Content (List Format) ---" ++ nl
        ++ nl ++ "No hyperlinks extracted." ++ nl
        ++ nl ++ "No YouTube videos identified.")%string
  /\ format_data_as_paragraphs text_summarizer_pipeline
                               (DataPage Samples.bare_page) "generic_website"
     = Ok ("--- Website Content (Paragraph Format) ---" ++ nl ++ nl
           ++ "No main text content extracted to summarize.")%string.
Proof. split; reflexivity. Qed.

End Presenter.

(** ** The summarizer on invalid input *)

Section InvalidInput.

Import TextSummarizer Invariants.

Lemma lstrip_whitespace_only (s : string) :
  whitespace_only s = true -> PyStr.lstrip s = "".
Proof.
  induction s as [| c s IH]; simpl; [reflexivity |].
  intros H. apply andb_true_iff in H. destruct H as [Hc Hs].
  rewrite Hc. auto.
Qed.

Lemma strip_whitespace_only (s : string) :
  whitespace_only s = true -> PyStr.strip s = "".
Proof.
  intros H. unfold PyStr.strip. now rewrite (lstrip_whitespace_only s H).
Qed.

(** C10.  With the pipeline initialized, a text that is empty, is not a
    string or consists of whitespace only makes [summarize_text] return
    "Input text is empty or invalid." with nothing printed and the
    pipeline not called; with the pipeline not initialized, the message
    of the disabled summarizer is returned for every text, the invalid
    ones included. *)
Theorem summarize_text_invalid_input (model : pipeline) (text : pyval)
    (max_length min_length : Z) :
  (text = PyStr ""
   \/ isinstance_str text = false
   \/ exists s, text = PyStr s /\ whitespace_only s = true) ->
  summarize_text (Some model) text max_length min_length
  = "Input text is empty or invalid."
  /\ summarize_text_run (Some model) text max_length min_length
     = ("Input text is empty or invalid.", [])
  /\ pipeline_calls (Some model) text max_length min_length = []
  /\ forall text' : pyval,
       summarize_text None text' max_length min_length
       = "Summarization pipeline not initialized. Please check installation and logs."
       /\ pipeline_calls None text' max_length min_length = [].
Proof.
  intros Hinvalid.
  assert (Hrun : summarize_text_run (Some model) text max_length min_length
                 = (msg_invalid, [])).
  { destruct Hinvalid as [-> | [Hstr | (s & -> & Hs)]].
    - reflexivity.
    - destruct text; try reflexivity. discriminate Hstr.
    - simpl. rewrite (strip_whitespace_only s Hs). simpl.
      now rewrite orb_true_r. }
  unfold summarize_text, pipeline_calls. rewrite Hrun.
  repeat split.
Qed.

Lemma summarize_text_invalid_input_witness :
  summarize_text (Some Samples.fixed_pipeline) (PyStr "") 150 30
  = "Input text is empty or invalid."
  /\ summarize_text (Some Samples.fixed_pipeline) PyNone 150 30
     = "Input text is empty or invalid."
  /\ summarize_text (Some Samples.fixed_pipeline)
                    (PyStr (String (ascii_of_nat 32) (String (ascii_of_nat 9) "")))
                    150 30
     = "Input text is empty or invalid.".
Proof.
  split; [| split].
  - apply (summarize_text_invalid_input Samples.fixed_pipeline (PyStr "")).
    left. reflexivity.
  - apply (summarize_text_invalid_input Samples.fixed_pipeline PyNone).
    right. left. reflexivity.
  - apply (summarize_text_invalid_input Samples.fixed_pipeline
             (PyStr (String (ascii_of_nat 32) (String (ascii_of_nat 9) "")))).
    right. right. eexists. split; reflexivity.
Defined.

(** A text with a word in it does reach the pipeline. *)
Example summarize_text_valid_input :
  summarize_text_run (Some Samples.fixed_pipeline) (PyStr "A tool for briefs") 50 15
  = ("A short brief.",
     [ WarnShorterThanMin 4 15;
       PipelineCalled "A tool for briefs" 50 15 ]).
Proof. reflexivity. Qed.

End InvalidInput.

(** ** The links and videos of a fetched page *)

Section WebLinks.

Import WebParser Derived.

Variable url : string.

(** One pass on a tag that carries an href never raises: it appends the
    link when it is a web link, and the video when it is a video link. *)
Lemma collect_link_spec (acc : list link * list video) (e : node) :
  FuturetoolsParser.has_href (Soup.get_href e) = true ->
  collect_link url acc e
  = Ok (fst acc ++ (if is_web_link e then [link_of_tag e] else []),
        snd acc ++ (if is_video_link e then [video_of_tag url e] else [])).
Proof.
  intros He. apply has_href_inv in He. destruct He as [h Hh].
  unfold collect_link, getitem_href, is_video_link, is_web_link,
    link_of_tag, video_of_tag, href_or_empty.
  rewrite Hh. cbn [bind].
  destruct (PyStr.truthy h && is_http_url h); cbn [andb].
  - now destruct (is_youtube_url h); rewrite ?app_nil_r.
  - rewrite !app_nil_r. now destruct acc.
Qed.

(** The loop never raises on tags that carry an href, and appends the
    web links and the video links in the order of the tags. *)
Lemma collect_links_spec (link_tags : list node) :
  Forall (fun e => FuturetoolsParser.has_href (Soup.get_href e) = true) link_tags ->
  forall acc,
    collect_links url link_tags acc
    = Ok (fst acc ++ map link_of_tag (filter is_web_link link_tags),
          snd acc ++ map (video_of_tag url) (filter is_video_link link_tags)).
Proof.
  induction 1 as [| e link_tags He _ IH]; intros acc.
  - simpl. rewrite !app_nil_r. now destruct acc.
  - cbn [collect_links]. rewrite (collect_link_spec acc e He). cbn [bind].
    rewrite IH. cbn [fst snd filter].
    destruct (is_web_link e), (is_video_link e); cbn [map];
      rewrite <- ?app_assoc; reflexivity.
Qed.

Lemma links_and_videos_spec (soup : node) :
  links_and_videos soup url
  = Ok (map link_of_tag
            (filter is_web_link
                    (Soup.find_all FuturetoolsParser.link_with_href soup)),
        map (video_of_tag url)
            (filter is_video_link
                    (Soup.find_all FuturetoolsParser.link_with_href soup))).
Proof.
  unfold links_and_videos.
  now rewrite (collect_links_spec _ (links_with_href soup)).
Qed.

(** X1.  Collecting the links of a page never raises; every link kept
    has an href that starts with "http://" or "https://", and is the
    href and the trimmed text of a link tag of the page. *)
Theorem collected_links_are_web_links (soup : node) :
  exists links videos,
    links_and_videos soup url = Ok (links, videos)
    /\ Forall (fun l =>
                 (PyStr.startswith (link_href l) "http://" = true
                  \/ PyStr.startswith (link_href l) "https://" = true)
                 /\ exists e,
                      In e (Soup.descendants soup)
                      /\ Soup.name e = Some "a"
                      /\ Soup.get_href e = Some (link_href l)
                      /\ link_text l = Soup.get_text "" e)
              links.
Proof.
  do 2 eexists. split; [apply links_and_videos_spec |].
  apply Forall_forall. intros l Hl.
  apply in_map_iff in Hl. destruct Hl as (e & <- & He).
  apply filter_In in He. destruct He as [He Hweb].
  unfold is_web_link in Hweb. apply andb_true_iff in Hweb.
  destruct Hweb as [_ Hhttp].
  pose proof (find_all_is_link soup e He) as [Hin Hname].
  apply find_all_href, proj2, has_href_inv in He. destruct He as [h Hh].
  unfold link_of_tag, href_or_empty in *. rewrite Hh in *. simpl.
  split; [now apply orb_true_iff |]. eauto 6.
Qed.

Lemma filter_sublist_In {A : Type} (f g : A -> bool) (l : list A) (x : A) :
  (forall y, g y = true -> f y = true) ->
  In x (filter g l) -> In x (filter f l).
Proof.
  intros Hgf. rewrite !filter_In. intros [Hin Hg]. auto.
Qed.

Lemma filter_length_le_of_imp {A : Type} (f g : A -> bool) (l : list A) :
  (forall y, g y = true -> f y = true) ->
  (List.length (filter g l) <= List.length (filter f l))%nat.
Proof.
  intros Hgf. induction l as [| x l IH]; simpl; [lia |].
  destruct (g x) eqn:Hg.
  - rewrite (Hgf x Hg). simpl. lia.
  - destruct (f x); simpl; lia.
Qed.

Lemma video_link_is_web_link (e : node) :
  is_video_link e = true -> is_web_link e = true.
Proof.
  unfold is_video_link. intros H. apply andb_true_iff in H. tauto.
Qed.

(** X2.  Every video entry of a page is one of its links: its URL
    contains "youtube.com/watch?v=" or "youtu.be/", the link with the
    same URL and the video's title as text is in the list of links, and
    it records the URL the page was fetched from.  So a page never has
    more videos than links. *)
Theorem collected_videos_are_links (soup : node) :
  exists links videos,
    links_and_videos soup url = Ok (links, videos)
    /\ Forall (fun v =>
                 (PyStr.contains "youtube.com/watch?v=" (video_url v) = true
                  \/ PyStr.contains "youtu.be/" (video_url v) = true)
                 /\ In (Link (video_title v) (video_url v)) links
                 /\ retrieved_from_url v = url)
              videos
    /\ (List.length videos <= List.length links)%nat.
Proof.
  do 2 eexists. split; [apply links_and_videos_spec |]. split.
  - apply Forall_forall. intros v Hv.
    apply in_map_iff in Hv. destruct Hv as (e & <- & He).
    pose proof (filter_sublist_In is_web_link is_video_link _ e
                  video_link_is_web_link He) as Hweb.
    apply filter_In in He. destruct He as [_ Hvideo].
    unfold is_video_link in Hvideo. apply andb_true_iff in Hvideo.
    destruct Hvideo as [_ Hyt]. simpl.
    split; [now apply orb_true_iff |]. split; [| reflexivity].
    apply in_map_iff. exists e. split; [reflexivity | assumption].
  - rewrite !length_map.
    apply filter_length_le_of_imp, video_link_is_web_link.
Qed.

(** The links and the video of the sample blog page. *)
Example links_of_blog :
  links_and_videos MoreSamples.blog_document MoreSamples.blog_url
  = Ok ([ Link "Post" "https://example.org/post";
          Link "Talk" "https://youtu.be/abc123" ],
        [ Video "https://youtu.be/abc123" "Talk" "https://example.org/" ]).
Proof. reflexivity. Qed.

End WebLinks.

(** ** More on the fields of a container *)

Section MoreFields.

Import FuturetoolsParser Invariants Derived.

Lemma long_string_nonempty (n : nat) (s : string) :
  (n <? String.length s)%nat = true -> s <> "".
Proof.
  intros H ->. simpl in H. apply Nat.ltb_lt in H. lia.
Qed.

Lemma fallback_paragraph_long (all_paragraphs : list node) (p_text : string) :
  fallback_paragraph all_paragraphs = Some p_text ->
  (20 < String.length p_text)%nat.
Proof.
  induction all_paragraphs as [| p_tag rest IH]; simpl; [discriminate |].
  destruct (PyStr.truthy _ && (20 <? _)%nat) eqn:Ht; [| exact IH].
  intros [= <-]. apply andb_true_iff in Ht. destruct Ht as [_ Ht].
  now apply Nat.ltb_lt.
Qed.

(** The description after the two searches below the container. *)
Lemma description_from_elements_spec (c : node) :
  let d := description_from_elements c in
  (if snd d then fst d <> "" else fst d = NA \/ fst d = "")
  /\ (Soup.find (Soup.Strainer ["p"; "div"] (Some description_classes) None) c
      = None ->
      if snd d then (20 < String.length (fst d))%nat else fst d = NA).
Proof.
  unfold description_from_elements.
  destruct (Soup.find _ c) as [desc_element |]; cbn [fst snd].
  - split; [| discriminate].
    destruct (PyStr.truthy _) eqn:Ht.
    + now apply truthy_nonempty.
    + right. unfold PyStr.truthy in Ht. apply negb_false_iff in Ht.
      now apply String.eqb_eq.
  - destruct (fallback_paragraph _) as [p_text |] eqn:Hp; cbn [fst snd].
    + apply fallback_paragraph_long in Hp. split; [| auto].
      intros ->. simpl in Hp. lia.
    + split; [now left | auto].
Qed.

(** The description after the last fallback, the text of the card. *)
Lemma extract_description_spec (c : node) (name : string) (has_name : bool)
    (ft : string) :
  let d := extract_description c name has_name ft in
  (if snd d then fst d <> "" else fst d = NA \/ fst d = "")
  /\ (Soup.find (Soup.Strainer ["p"; "div"] (Some description_classes) None) c
      = None ->
      if snd d then (20 < String.length (fst d))%nat else fst d = NA).
Proof.
  pose proof (description_from_elements_spec c) as [Hd Hnone].
  cbv zeta in *. unfold extract_description.
  destruct (negb (snd (description_from_elements c)) && has_name);
    [| split; assumption].
  destruct ((30 <? _)%nat && negb _) eqn:Ht; [| split; assumption].
  apply andb_true_iff in Ht. destruct Ht as [Hlen _]. cbn [fst snd].
  split.
  - exact (long_string_nonempty _ _ Hlen).
  - intros _. apply Nat.ltb_lt in Hlen. lia.
Qed.

(** X3.  A pass never raises, and a description it resolves is never
    empty; one resolved without a class-marked description element has
    more than 20 characters.  When none is resolved, the description is
    left at "N/A", or at the empty string, and the summarized description
    is "N/A". *)
Theorem resolved_description_nonempty
    (summarizer : option TextSummarizer.pipeline) (c : node) :
  exists l,
    process_container summarizer c = Ok l
    /\ (if current_tool_has_description l
        then description l <> ""
             /\ (Soup.find (Soup.Strainer ["p"; "div"]
                                          (Some description_classes) None) c
                 = None ->
                 (20 < String.length (description l))%nat)
        else (description l = "N/A" \/ description l = "")
             /\ summarized_description l = "N/A").
Proof.
  destruct (process_container_fields summarizer c)
    as (ft & web & _ & _ & _ & _ & Heq).
  eexists. split; [exact Heq |]. cbv zeta.
  cbn [current_tool_has_description description summarized_description].
  pose proof (extract_description_spec c (fst (extract_name c))
                (snd (extract_name c)) (fst ft)) as [Hd Hnone].
  cbv zeta in Hd, Hnone. unfold summarize_description.
  destruct (snd (extract_description _ _ _ _)); cbn [andb].
  - split; [exact Hd | exact Hnone].
  - split; [exact Hd | reflexivity].
Qed.

Lemma prefix_app (p r : string) : String.prefix p (p ++ r) = true.
Proof.
  induction p as [| a p IH]; simpl; [now destruct r |].
  destruct (ascii_dec a a); [exact IH | congruence].
Qed.

Lemma contains_prefix (sub s : string) :
  String.prefix sub s = true -> PyStr.contains sub s = true.
Proof.
  intros H. destruct s; cbn [PyStr.contains]; rewrite H; reflexivity.
Qed.

Lemma contains_cons (sub : string) (a : ascii) (s : string) :
  PyStr.contains sub s = true -> PyStr.contains sub (String a s) = true.
Proof.
  intros H. cbn [PyStr.contains]. rewrite H. apply orb_true_r.
Qed.

Lemma contains_middle (p q r : string) :
  PyStr.contains q (p ++ q ++ r) = true.
Proof.
  induction p as [| a p IH].
  - change (PyStr.contains q (q ++ r) = true).
    apply contains_prefix, prefix_app.
  - change (PyStr.contains q (String a (p ++ q ++ r)) = true).
    apply contains_cons. exact IH.
Qed.

Lemma base_prefixed_on_site (h : string) :
  PyStr.contains "futuretools.io" (base_url_ft ++ h) = true.
Proof.
  exact (contains_middle "https://www." "futuretools.io" h).
Qed.

(** X11.  The futuretools link of every tool returned is "N/A" or the
    base URL followed by a path that starts with "/tool/" or "/tools/",
    never a relative path; and the two links of a tool are never the
    same string. *)
Theorem returned_links_absolute_and_distinct
    (fetch_and_parse_website : string -> option page_data)
    (summarizer : option TextSummarizer.pipeline) (url : string) :
  exists tools,
    extract_tools_from_futuretools fetch_and_parse_website summarizer url
    = Ok tools
    /\ Forall (fun t =>
                 (Tool.futuretools_link t = "N/A"
                  \/ exists h,
                       (PyStr.startswith h "/tool/" = true
                        \/ PyStr.startswith h "/tools/" = true)
                       /\ Tool.futuretools_link t
                          = ("https://www.futuretools.io" ++ h)%string)
                 /\ Tool.website_link t <> Tool.futuretools_link t)
              tools.
Proof.
  apply extracted_tools_forall. intros c l Hl Hacc.
  destruct (accepted_locals_named_and_linked summarizer c l Hl Hacc)
    as [_ Hlinked].
  destruct (process_container_fields summarizer c)
    as (ft & web & _ & _ & Hft & Hweb & Heq).
  rewrite Heq in Hl. injection Hl as <-. cbn in *.
  unfold stored_ft_link in Hft. unfold stored_website_link in Hweb.
  destruct (snd ft).
  - destruct Hft as (h & Hp & Hfth). split.
    + right. exists h. split; [now apply orb_true_iff | exact Hfth].
    + destruct (snd web).
      * intros Heqlinks. apply external_href_off_site in Hweb.
        destruct Hweb as [_ Hoff]. rewrite Heqlinks, Hfth in Hoff.
        now rewrite base_prefixed_on_site in Hoff.
      * rewrite Hweb, Hfth. intros Heqlinks. symmetry in Heqlinks.
        exact (base_prefixed_not_NA h Heqlinks).
  - split; [now left |]. rewrite Hft. destruct Hlinked as [Hw | Hf].
    + exact Hw.
    + now rewrite Hft in Hf.
Qed.

End MoreFields.

(** ** The first link that leaves the site *)

Section FallbackOrder.

Import FuturetoolsParser Invariants Derived.

(** The fallback loop takes the first link it accepts: every link before
    it was turned down, and all of them when nothing is taken. *)
Lemma fallback_website_link_first (links : list node) (ft : string) :
  Forall (fun e => has_href (Soup.get_href e) = true) links ->
  match fallback_website_link links ft with
  | Ok (Some href) =>
      is_external_href href = true
      /\ href <> ft
      /\ exists before e after,
        links = before ++ e :: after
        /\ Soup.get_href e = Some href
        /\ Forall (fun e' =>
                     is_external_href (href_or_empty e') = false
                     \/ href_or_empty e' = ft)
                  before
  | Ok None =>
      Forall (fun e' =>
                is_external_href (href_or_empty e') = false
                \/ href_or_empty e' = ft)
             links
  | Raise _ => False
  end.
Proof.
  induction 1 as [| e links He _ IH]; simpl; [constructor |].
  apply has_href_inv in He. destruct He as [h Hh].
  unfold getitem_href. rewrite Hh. cbn [bind].
  destruct (is_external_href h && negb (h =? ft)) eqn:Ht.
  - apply andb_true_iff in Ht. destruct Ht as [Hx Hne].
    apply negb_true_iff, String.eqb_neq in Hne.
    split; [exact Hx |]. split; [exact Hne |].
    exists [], e, links. repeat split; [exact Hh | constructor].
  - assert (Hturned : is_external_href (href_or_empty e) = false
                      \/ href_or_empty e = ft).
    { unfold href_or_empty. rewrite Hh.
      apply andb_false_iff in Ht. destruct Ht as [Ht | Ht]; [now left |].
      right. apply negb_false_iff in Ht. now apply String.eqb_eq. }
    destruct (fallback_website_link links ft) as [[href |] | ex];
      [| now constructor | exact IH].
    destruct IH as (Hx & Hne & before & e' & after & -> & He' & Hbefore).
    split; [exact Hx |]. split; [exact Hne |].
    exists (e :: before), e', after.
    repeat split; [exact He' | now constructor].
Qed.

(** X12.  In a container without a class-marked website link, a resolved
    website link starts with "http", does not contain "futuretools.io",
    is not the directory link, and is the href of the first link with an
    href, in document order, of which that holds: every link before it
    fails that test.  The website link is left unresolved exactly when
    every link with an href fails it. *)
Theorem website_fallback_takes_first
    (summarizer : option TextSummarizer.pipeline) (c : node) :
  Soup.find marked_link c = None ->
  exists l,
    process_container summarizer c = Ok l
    /\ if current_tool_has_website_link l
       then PyStr.startswith (website_link l) "http" = true
            /\ PyStr.contains "futuretools.io" (website_link l) = false
            /\ website_link l <> futuretools_link_internal l
            /\ exists before e after,
              Soup.find_all link_with_href c = before ++ e :: after
              /\ Soup.get_href e = Some (website_link l)
              /\ Forall (fun e' =>
                           is_external_href (href_or_empty e') = false
                           \/ href_or_empty e' = futuretools_link_internal l)
                        before
       else website_link l = "N/A"
            /\ Forall (fun e' =>
                         is_external_href (href_or_empty e') = false
                         \/ href_or_empty e' = futuretools_link_internal l)
                      (Soup.find_all link_with_href c).
Proof.
  intros Hnone.
  destruct (process_container_fields summarizer c)
    as (ft & web & _ & Hweb & _ & _ & Heq).
  eexists. split; [exact Heq |]. cbv zeta.
  cbn [current_tool_has_website_link website_link futuretools_link_internal].
  unfold extract_website_link in Hweb. rewrite Hnone in Hweb.
  pose proof (fallback_website_link_first _ (fst ft) (links_with_href c)) as Hfirst.
  destruct (fallback_website_link _ (fst ft)) as [[href |] | ex];
    [| | contradiction]; cbn [bind] in Hweb; injection Hweb as <-;
    cbn [fst snd].
  - destruct Hfirst as (Hx & Hne & Hrest).
    apply external_href_off_site in Hx. destruct Hx as [Hhttp Hoff].
    auto.
  - split; [reflexivity | exact Hfirst].
Qed.

Lemma website_fallback_takes_first_witness :
  exists l,
    process_container None Samples.card_long_description = Ok l
    /\ if current_tool_has_website_link l
       then PyStr.startswith (website_link l) "http" = true
            /\ PyStr.contains "futuretools.io" (website_link l) = false
            /\ website_link l <> futuretools_link_internal l
            /\ exists before e after,
              Soup.find_all link_with_href Samples.card_long_description
              = before ++ e :: after
              /\ Soup.get_href e = Some (website_link l)
              /\ Forall (fun e' =>
                           is_external_href (href_or_empty e') = false
                           \/ href_or_empty e' = futuretools_link_internal l)
                        before
       else website_link l = "N/A"
            /\ Forall (fun e' =>
                         is_external_href (href_or_empty e') = false
                         \/ href_or_empty e' = futuretools_link_internal l)
                      (Soup.find_all link_with_href Samples.card_long_description).
Proof.
  apply (website_fallback_takes_first None Samples.card_long_description).
  reflexivity.
Defined.

End FallbackOrder.

(** ** The containers of a page *)

Section Discovery.

Import FuturetoolsParser.

Lemma prefix_app_contains (p q s : string) :
  String.prefix (p ++ q) s = true -> PyStr.contains q s = true.
Proof.
  revert s. induction p as [| a p IH]; intros s.
  - apply contains_prefix.
  - destruct s as [| b s]; cbn -[ascii_dec PyStr.contains]; [discriminate |].
    destruct (ascii_dec a b); [| discriminate].
    intros H. apply contains_cons. now apply IH.
Qed.

(** A string that contains [p ++ q] contains [q]. *)
Lemma contains_suffix_of_sub (p q s : string) :
  PyStr.contains (p ++ q) s = true -> PyStr.contains q s = true.
Proof.
  induction s as [| b s IH]; cbn [PyStr.contains]; intros H.
  - rewrite orb_false_r in H. rewrite orb_false_r.
    apply prefix_app_contains in H. cbn [PyStr.contains] in H.
    now rewrite orb_false_r in H.
  - apply orb_true_iff in H. destruct H as [H | H].
    + apply prefix_app_contains in H. exact H.
    + apply IH in H. fold (PyStr.contains q s). rewrite H. apply orb_true_r.
Qed.

Lemma collection_item_is_item (n : node) :
  Soup.class_contains "collection-item" n = true ->
  Soup.class_contains "item" n = true.
Proof.
  unfold Soup.class_contains. destruct (Soup.get_class n); [| discriminate].
  exact (contains_suffix_of_sub "collection-" "item" _).
Qed.

Lemma filter_ext_in_list {A : Type} (f g : A -> bool) (l : list A) :
  (forall x, f x = g x) -> filter f l = filter g l.
Proof.
  intros H. induction l as [| x l IH]; simpl; [reflexivity |].
  now rewrite H, IH.
Qed.

(** X6.  The containers of a page are the tags whose class attribute
    contains "tool-card", in document order, when there is one; only
    otherwise are they the tags whose class attribute contains "item".
    The second selector of the fallback, "collection-item", adds nothing.
    Every container is a tag below the root whose class attribute
    contains "tool-card" or "item". *)
Theorem containers_by_class (soup : node) :
  discover_containers soup
  = match filter (fun n => Soup.is_tag n && Soup.class_contains "tool-card" n)
                 (Soup.descendants soup) with
    | [] => filter (fun n => Soup.is_tag n && Soup.class_contains "item" n)
                   (Soup.descendants soup)
    | tool_cards => tool_cards
    end
  /\ Forall (fun c =>
               In c (Soup.descendants soup)
               /\ Soup.is_tag c = true
               /\ (Soup.class_contains "tool-card" c = true
                   \/ Soup.class_contains "item" c = true))
            (discover_containers soup).
Proof.
  assert (Hcards : Soup.select ["tool-card"] soup
                   = filter (fun n => Soup.is_tag n
                                      && Soup.class_contains "tool-card" n)
                            (Soup.descendants soup)).
  { unfold Soup.select. apply filter_ext_in_list. intros n. simpl.
    now rewrite orb_false_r. }
  assert (Hitems : Soup.select ["item"; "collection-item"] soup
                   = filter (fun n => Soup.is_tag n
                                      && Soup.class_contains "item" n)
                            (Soup.descendants soup)).
  { unfold Soup.select. apply filter_ext_in_list. intros n. simpl.
    rewrite orb_false_r. f_equal.
    destruct (Soup.class_contains "item" n) eqn:Hi; [reflexivity |].
    destruct (Soup.class_contains "collection-item" n) eqn:Hc; [| reflexivity].
    apply collection_item_is_item in Hc. congruence. }
  assert (Heq : discover_containers soup
                = match filter (fun n => Soup.is_tag n
                                         && Soup.class_contains "tool-card" n)
                               (Soup.descendants soup) with
                  | [] => filter (fun n => Soup.is_tag n
                                           && Soup.class_contains "item" n)
                                 (Soup.descendants soup)
                  | tool_cards => tool_cards
                  end).
  { unfold discover_containers. now rewrite Hcards, Hitems. }
  split; [exact Heq |].
  rewrite Heq. apply Forall_forall. intros c Hc.
  destruct (filter (fun n => Soup.is_tag n && Soup.class_contains "tool-card" n)
                   (Soup.descendants soup)) as [| c0 cs] eqn:Hf.
  - apply filter_In in Hc. destruct Hc as [Hin Hc].
    apply andb_true_iff in Hc. tauto.
  - rewrite <- Hf in Hc. apply filter_In in Hc. destruct Hc as [Hin Hc].
    apply andb_true_iff in Hc. tauto.
Qed.

End Discovery.

(** ** More on the counts *)

Section MoreTally.

Import FuturetoolsParser Invariants.

Lemma count_disjoint (f g : locals -> bool) (ls : list locals) :
  (forall l, f l = true -> g l = false) ->
  (count f ls + count g ls <= List.length ls)%nat.
Proof.
  intros Hfg. induction ls as [| l ls IH]; [unfold count; simpl; lia |].
  rewrite !count_cons. simpl List.length.
  destruct (f l) eqn:Hf; [rewrite (Hfg l Hf) | destruct (g l)]; lia.
Qed.

(** The two link counts, over a whole list: every container with a name
    and without the link is counted, accepted or not. *)
Lemma link_counts_fold (n : nat) (ls : list locals) :
  forall st,
    let c := counts st in
    let c' := counts (fold_left (update_counts n) ls st) in
    missing_website_links_count c'
    = (missing_website_links_count c
       + count (fun l => current_tool_has_name l
                         && negb (current_tool_has_website_link l)) ls)%nat
    /\ missing_ft_links_count c'
       = (missing_ft_links_count c
          + count (fun l => current_tool_has_name l
                            && negb (current_tool_has_ft_link l)) ls)%nat.
Proof.
  induction ls as [| l ls IH]; intros st; cbv zeta.
  - unfold count. simpl. now rewrite !Nat.add_0_r.
  - simpl fold_left. specialize (IH (update_counts n st l)). cbv zeta in IH.
    destruct IH as (Hw & Hf). rewrite Hw, Hf, !count_cons.
    unfold update_counts, accepted, incr_unless.
    destruct (current_tool_has_name l), (current_tool_has_website_link l),
      (current_tool_has_ft_link l), (0 <? n)%nat;
      simpl; split; lia.
Qed.

(** What a run that ends with its parsing summary went through. *)
Lemma parsing_summary_inv
    (fetch_and_parse_website : string -> option page_data)
    (summarizer : option TextSummarizer.pipeline) (url : string)
    (tools : list Tool.t) (n : nat) (c : counters) :
  extract_tools_run fetch_and_parse_website summarizer url
  = Ok (tools, ParsingSummary n c) ->
  exists parsed_data soup ls,
    fetch_and_parse_website url = Some parsed_data
    /\ pd_soup parsed_data = Some soup
    /\ locals_of summarizer (discover_containers soup) ls
    /\ n = List.length ls
    /\ (0 < n)%nat
    /\ tools = map tool_of (filter accepted ls)
    /\ c = counts (fold_left (update_counts n) ls initial_state).
Proof.
  intros Hrun.
  destruct (extract_tools_run_outcome summarizer fetch_and_parse_website url)
    as [_ H | ? _ _ H | ? ? _ _ _ H | parsed_data soup ls Hfetch Hsoup Hne Hls H];
    rewrite H in Hrun; try discriminate Hrun.
  injection Hrun as <- <- <-.
  assert (Hlen : List.length (discover_containers soup) = List.length ls)
    by (eapply Forall2_length; exact Hls).
  exists parsed_data, soup, ls.
  repeat (split; [assumption || reflexivity |]).
  split; [destruct (discover_containers soup); [congruence | simpl; lia] |].
  split; reflexivity.
Qed.

(** X4.  When the run ends with its parsing summary over [n] containers,
    the count of extracted tools is the length of the list returned; with
    the count of missing names it does not exceed [n]; the count of
    missing descriptions does not exceed the count of extracted tools;
    and the number printed for missing names lies between the count of
    missing names and the number of containers that gave no tool. *)
Theorem tally_bounds
    (fetch_and_parse_website : string -> option page_data)
    (summarizer : option TextSummarizer.pipeline) (url : string)
    (tools : list Tool.t) (n : nat) (c : counters) :
  extract_tools_run fetch_and_parse_website summarizer url
  = Ok (tools, ParsingSummary n c) ->
  processed_tools_count c = List.length tools
  /\ (List.length tools + missing_names_count c <= n)%nat
  /\ (missing_descriptions_count c <= processed_tools_count c)%nat
  /\ (missing_names_count c <= reported_missing_names n c)%nat
  /\ (reported_missing_names n c <= n - List.length tools)%nat.
Proof.
  intros Hrun.
  destruct (parsing_summary_inv _ _ _ _ _ _ Hrun)
    as (pd & soup & ls & _ & _ & _ & Hn & Hpos & -> & ->).
  destruct (counts_fold n ls Hpos initial_state) as (Hp & Hm & Hd).
  cbv zeta in Hp, Hm, Hd. simpl in Hp, Hm, Hd.
  assert (Hlen : List.length (map tool_of (filter accepted ls))
                 = count accepted ls)
    by (unfold count; apply length_map).
  assert (Hdisj : (count accepted ls
                   + count (fun l => negb (current_tool_has_name l)) ls
                   <= n)%nat).
  { rewrite Hn. apply count_disjoint. intros l Hacc.
    unfold accepted in Hacc. apply andb_true_iff in Hacc.
    destruct Hacc as [Hname _]. now rewrite Hname. }
  assert (Hdesc : (count (fun l => accepted l
                                   && negb (current_tool_has_description l)) ls
                   <= count accepted ls)%nat).
  { unfold count. apply filter_length_le_of_imp.
    intros l Hl. apply andb_true_iff in Hl. tauto. }
  unfold reported_missing_names. rewrite Hlen, Hp, Hm, Hd.
  repeat split; try lia.
  - destruct (count accepted ls =? 0)%nat, (0 <? n)%nat; simpl; lia.
  - destruct (count accepted ls =? 0)%nat eqn:H0, (0 <? n)%nat; simpl;
      try (apply Nat.eqb_eq in H0);
      destruct (count (fun l => negb (current_tool_has_name l)) ls =? 0)%nat
        eqn:Hz; try (apply Nat.eqb_eq in Hz); lia.
Qed.

Lemma tally_bounds_witness :
  (0 <= reported_missing_names 2 (Counters 1 0 2 1 1))%nat
  /\ (reported_missing_names 2 (Counters 1 0 2 1 1) <= 1)%nat.
Proof.
  destruct (tally_bounds
              (Samples.fetch_page [Samples.card_acme; Samples.card_linkless])
              None "https://www.futuretools.io/"
              [ Tool.Build "Acme" "N/A" "https://www.futuretools.io/tool/acme-ai"
                           "" "N/A" ]
              2 (Counters 1 0 2 1 1))
    as (_ & _ & _ & Hlow & Hhigh).
  - vm_compute. reflexivity.
  - split; [exact Hlow | exact Hhigh].
Defined.

(** X5.  When the run ends with its parsing summary, the count of
    missing website links is the number of containers that yielded a name
    and no website link, and the count of missing futuretools links the
    number that yielded a name and no futuretools link, whether the
    container was accepted or not: a named container without any link is
    in both counts. *)
Theorem link_counts_include_rejected
    (fetch_and_parse_website : string -> option page_data)
    (summarizer : option TextSummarizer.pipeline) (url : string)
    (tools : list Tool.t) (n : nat) (c : counters) :
  extract_tools_run fetch_and_parse_website summarizer url
  = Ok (tools, ParsingSummary n c) ->
  exists parsed_data soup ls,
    fetch_and_parse_website url = Some parsed_data
    /\ pd_soup parsed_data = Some soup
    /\ locals_of summarizer (discover_containers soup) ls
    /\ missing_website_links_count c
       = count (fun l => current_tool_has_name l
                         && negb (current_tool_has_website_link l)) ls
    /\ missing_ft_links_count c
       = count (fun l => current_tool_has_name l
                         && negb (current_tool_has_ft_link l)) ls
    /\ (count (fun l => current_tool_has_name l && negb (accepted l)) ls
        <= missing_ft_links_count c)%nat.
Proof.
  intros Hrun.
  destruct (parsing_summary_inv _ _ _ _ _ _ Hrun)
    as (pd & soup & ls & Hfetch & Hsoup & Hls & _ & _ & _ & ->).
  destruct (link_counts_fold n ls initial_state) as (Hw & Hf).
  cbv zeta in Hw, Hf. simpl in Hw, Hf.
  exists pd, soup, ls.
  split; [exact Hfetch |]. split; [exact Hsoup |]. split; [exact Hls |].
  split; [exact Hw |]. split; [exact Hf |].
  rewrite Hf. unfold count. apply filter_length_le_of_imp.
  intros l Hl. unfold accepted in Hl.
  destruct (current_tool_has_name l), (current_tool_has_ft_link l),
    (current_tool_has_website_link l); simpl in *; congruence.
Qed.

Lemma link_counts_include_rejected_witness :
  exists ls,
    count (fun l => current_tool_has_name l
                    && negb (current_tool_has_website_link l)) ls = 2
    /\ count (fun l => current_tool_has_name l
                       && negb (current_tool_has_ft_link l)) ls = 1.
Proof.
  destruct (link_counts_include_rejected
              (Samples.fetch_page [Samples.card_acme; Samples.card_linkless])
              None "https://www.futuretools.io/"
              [ Tool.Build "Acme" "N/A" "https://www.futuretools.io/tool/acme-ai"
                           "" "N/A" ]
              2 (Counters 1 0 2 1 1))
    as (pd & soup & ls & _ & _ & _ & Hw & Hf & _).
  - vm_compute. reflexivity.
  - exists ls. simpl in *. auto.
Defined.

End MoreTally.

(** ** The summarizer on text with words *)

Section ValidInput.

Import TextSummarizer Invariants Derived.

Lemma rstrip_empty (s : string) :
  PyStr.rstrip s = "" -> whitespace_only s = true.
Proof.
  induction s as [| c s IH]; simpl; [reflexivity |].
  destruct (PyStr.rstrip s); [| discriminate].
  destruct (PyStr.isspace c); [intros _; now apply IH | discriminate].
Qed.

Lemma whitespace_only_lstrip (s : string) :
  whitespace_only (PyStr.lstrip s) = true -> whitespace_only s = true.
Proof.
  induction s as [| c s IH]; simpl; [reflexivity |].
  destruct (PyStr.isspace c) eqn:Hc; simpl; [exact IH |].
  now rewrite Hc.
Qed.

(** Stripping leaves nothing exactly of the strings of whitespace. *)
Lemma strip_empty_iff (s : string) :
  PyStr.strip s = "" <-> whitespace_only s = true.
Proof.
  split; [| apply strip_whitespace_only].
  unfold PyStr.strip. intros H.
  now apply whitespace_only_lstrip, rstrip_empty.
Qed.

Lemma split_whitespace_only (s : string) :
  whitespace_only s = true -> PyStr.split s = [].
Proof.
  unfold PyStr.split. induction s as [| c s IH]; simpl; [reflexivity |].
  intros H. apply andb_true_iff in H. destruct H as [Hc Hs].
  rewrite Hc. auto.
Qed.

Lemma invalid_guard (s : string) :
  negb (PyStr.truthy s) || (String.length (PyStr.strip s) =? 0)%nat
  = whitespace_only s.
Proof.
  destruct (whitespace_only s) eqn:Hw.
  - rewrite (strip_whitespace_only s Hw). apply orb_true_r.
  - assert (Hstrip : PyStr.strip s <> "").
    { intros H. apply strip_empty_iff in H. congruence. }
    destruct s as [| c s]; [discriminate Hw |].
    destruct (PyStr.strip (String c s)); [congruence | reflexivity].
Qed.

(** X7.  With the pipeline initialized, [summarize_text] on a string
    calls the pipeline exactly when the string has a character that is
    not whitespace, once, with the text and the two bounds as given; the
    result is the first summary of the answer, or a message that starts
    with "Error during summarization: " when the pipeline raises or
    answers with an empty list. *)
Theorem summarize_text_calls_pipeline_once (model : pipeline) (s : string)
    (max_length min_length : Z) :
  summarize_text (Some model) (PyStr s) max_length min_length
  = (if whitespace_only s
     then "Input text is empty or invalid."
     else match model s max_length min_length with
          | Summaries (summary_text :: _) => summary_text
          | Summaries [] => "Error during summarization: list index out of range"
          | PipelineRaised e => "Error during summarization: " ++ e
          end)%string
  /\ pipeline_calls (Some model) (PyStr s) max_length min_length
     = if whitespace_only s then []
       else [PipelineCalled s max_length min_length].
Proof.
  unfold summarize_text, pipeline_calls, summarize_text_run.
  rewrite invalid_guard.
  destruct (whitespace_only s); [split; reflexivity |].
  assert (Hcalls : forall w1 w2 : list event,
             (forall e, In e (w1 ++ w2) ->
                        match e with PipelineCalled _ _ _ => False | _ => True end) ->
             filter (fun e => match e with
                              | PipelineCalled _ _ _ => true
                              | _ => false
                              end)
                    (w1 ++ w2 ++ [PipelineCalled s max_length min_length])
             = [PipelineCalled s max_length min_length]).
  { intros w1 w2 Hw. rewrite app_assoc, filter_app. simpl.
    replace (filter _ (w1 ++ w2)) with (@nil event); [reflexivity |].
    symmetry. induction (w1 ++ w2) as [| e w IH]; [reflexivity |].
    simpl. pose proof (Hw e (or_introl eq_refl)) as He.
    destruct e; try contradiction; apply IH; intros; apply Hw; now right. }
  assert (Hwarn : forall e,
             In e ((if (Z.of_nat (List.length (PyStr.split s)) <? min_length)%Z
                    then [WarnShorterThanMin (List.length (PyStr.split s))
                                             min_length]
                    else [])
                   ++ (if (1000 <? List.length (PyStr.split s))%nat
                       then [WarnVeryLong] else [])) ->
             match e with PipelineCalled _ _ _ => False | _ => True end).
  { intros e He. apply in_app_or in He.
    destruct (Z.of_nat _ <? min_length)%Z, (1000 <? _)%nat;
      simpl in He; intuition; subst; exact I. }
  destruct (model s max_length min_length) as [[| summary_text rest] | e];
    cbn [fst snd]; (split; [reflexivity | now apply Hcalls]).
Qed.

(** X8.  With the pipeline initialized, a resolved description of more
    than 30 words is always put to the pipeline, with the bounds 50 and
    15, and the summarized description is what [summarize_text] makes of
    the answer; the call prints no warning about a text shorter than the
    minimum.  Any other resolved description is its own summary. *)
Theorem long_descriptions_reach_pipeline (model : pipeline) (c : node) :
  exists l,
    FuturetoolsParser.process_container (Some model) c = Ok l
    /\ if FuturetoolsParser.current_tool_has_description l
       then
         let description := FuturetoolsParser.description l in
         let words := List.length (PyStr.split description) in
         if (30 <? words)%nat
         then FuturetoolsParser.summarized_description l
              = answer_of (model description 50%Z 15%Z)
              /\ summarize_text_run (Some model) (PyStr description) 50 15
                 = (answer_of (model description 50%Z 15%Z),
                    (if (1000 <? words)%nat then [WarnVeryLong] else [])
                    ++ [PipelineCalled description 50 15])
         else FuturetoolsParser.summarized_description l = description
       else FuturetoolsParser.summarized_description l = "N/A".
Proof.
  destruct (summarization_hook (Some model) c) as (l & Hl & Hs).
  exists l. split; [exact Hl |]. rewrite Hs.
  destruct (FuturetoolsParser.current_tool_has_description l);
    [| reflexivity].
  cbv zeta.
  destruct (30 <? _)%nat eqn:Hwords; [| reflexivity].
  apply Nat.ltb_lt in Hwords.
  set (d := FuturetoolsParser.description l) in *.
  assert (Hws : whitespace_only d = false).
  { destruct (whitespace_only d) eqn:Hw; [| reflexivity].
    rewrite (split_whitespace_only d Hw) in Hwords. simpl in Hwords. lia. }
  assert (Hshort : (Z.of_nat (List.length (PyStr.split d)) <? 15)%Z = false)
    by (apply Z.ltb_ge; lia).
  assert (Hrun : summarize_text_run (Some model) (PyStr d) 50 15
                 = (answer_of (model d 50%Z 15%Z),
                    (if (1000 <? List.length (PyStr.split d))%nat
                     then [WarnVeryLong] else [])
                    ++ [PipelineCalled d 50 15])).
  { unfold summarize_text_run. rewrite invalid_guard, Hws, Hshort.
    unfold answer_of.
    now destruct (model d 50%Z 15%Z) as [[| summary_text rest] | e]. }
  split; [| exact Hrun].
  unfold summarize_text. now rewrite Hrun.
Qed.

End ValidInput.

(** ** The presenters on data of the wrong kind, and the size of a list *)

Section MorePresenter.

Import InformationOrganizer Derived.

Lemma source_type_cases (source_type : string) :
  source_type = "futuretools"
  \/ (source_type <> "futuretools" /\ source_type = "generic_website")
  \/ (source_type <> "futuretools" /\ source_type <> "generic_website").
Proof.
  destruct (String.eqb_spec source_type "futuretools"); [now left |].
  destruct (String.eqb_spec source_type "generic_website"); auto.
Qed.

Lemma not_raise_ok {A : Type} (a : A) : ~ (exists e, Ok a = Raise e).
Proof. intros [e He]. discriminate He. Qed.

(** X9.  Either presenter raises exactly when the data is not of the kind
    its source type reads: a page dictionary formatted as "futuretools",
    or a non-empty list formatted as "generic_website"; the exception is
    an [AttributeError].  On every other input, an unknown source type
    and absent or empty data included, it returns a text. *)
Theorem presenters_raise_on_mismatch
    (text_summarizer_pipeline : option TextSummarizer.pipeline)
    (data : pydata) (source_type : string) :
  ((exists e, format_data_as_list data source_type = Raise e)
   <-> mismatched data source_type)
  /\ ((exists e, format_data_as_paragraphs text_summarizer_pipeline
                                          data source_type = Raise e)
      <-> mismatched data source_type)
  /\ (forall e,
         format_data_as_list data source_type = Raise e
         \/ format_data_as_paragraphs text_summarizer_pipeline data source_type
            = Raise e ->
         exists what, e = AttributeError what).
Proof.
  unfold mismatched, format_data_as_list, format_data_as_paragraphs.
  destruct (source_type_cases source_type) as [-> | [[Hft ->] | [Hft Hgw]]].
  - rewrite String.eqb_refl.
    destruct data as [| [| tool tools] | page]; cbn [truthy negb];
      (split; [| split]);
      try (split; [intros [e He]; discriminate He
                  | intros [[_ (? & H)] | [H _]]; discriminate H]);
      try (split; [intros _; left; eauto | intros _; eauto]);
      intros e [He | He]; try discriminate He; injection He as <-; eauto.
  - destruct (String.eqb_spec "generic_website" "futuretools") as [H | _];
      [discriminate H |].
    rewrite String.eqb_refl.
    destruct data as [| [| tool tools] | page]; cbn [truthy negb];
      (split; [| split]);
      try (split; [intros [e He]; discriminate He
                  | intros [[H _] | [_ (? & ? & H)]]; discriminate H]);
      try (split; [intros _; right; eauto | intros _; eauto]);
      intros e [He | He]; try discriminate He; injection He as <-; eauto.
  - apply String.eqb_neq in Hft as Hft'. apply String.eqb_neq in Hgw as Hgw'.
    rewrite Hft', Hgw'.
    split; [| split];
      try (split; [intros [e He]; discriminate He
                  | intros [[H _] | [H _]]; contradiction]).
    intros e [He | He]; discriminate He.
Qed.

Lemma enumerate_from_length {A : Type} (l : list A) :
  forall i, List.length (enumerate_from i l) = List.length l.
Proof.
  induction l as [| x l IH]; intros i; simpl; [reflexivity |].
  now rewrite IH.
Qed.

Lemma flat_map_length_const {A B : Type} (f : A -> list B) (k : nat)
    (l : list A) :
  (forall x, List.length (f x) = k) ->
  List.length (flat_map f l) = (k * List.length l)%nat.
Proof.
  intros Hk. induction l as [| x l IH]; simpl; [lia |].
  rewrite length_app, Hk, IH. lia.
Qed.

(** X10.  The list format of a fetched page is the heading, the section
    of the links and the section of the videos joined by newlines.  The
    section of the links has a line and two more for each of the first 10
    links; that of the videos a line and two more for every video. *)
Theorem list_format_size (page : page_data) :
  format_data_as_list (DataPage page) "generic_website"
  = Ok (PyStr.join nl (page_list_lines page))
  /\ List.length (page_list_lines page)
     = (3 + 2 * Nat.min 10 (List.length (pd_links page))
        + 2 * List.length (pd_youtube_videos page))%nat.
Proof.
  split; [reflexivity |].
  unfold page_list_lines. rewrite !length_app.
  assert (Hlinks : forall links : list link,
             List.length (flat_map link_lines (enumerate links))
             = (2 * List.length links)%nat).
  { intros links. unfold enumerate.
    rewrite (flat_map_length_const link_lines 2), enumerate_from_length;
      [reflexivity | now intros [i l]]. }
  assert (Hvideos : forall videos : list video,
             List.length (flat_map video_lines (enumerate videos))
             = (2 * List.length videos)%nat).
  { intros videos. unfold enumerate.
    rewrite (flat_map_length_const video_lines 2), enumerate_from_length;
      [reflexivity | now intros [i v]]. }
  destruct (pd_links page) as [| l links] eqn:Hl;
    destruct (pd_youtube_videos page) as [| v videos] eqn:Hv;
    cbn [List.length]; rewrite ?Hlinks, ?Hvideos, ?length_firstn;
    cbn [List.length]; lia.
Qed.

End MorePresenter.

(** ** Containers without a heading or a link *)

Section Nameless.

Import FuturetoolsParser Invariants Derived.

Lemma find_nothing {A : Type} (f : A -> bool) (l : list A) :
  (forall x, In x l -> f x = false) -> List.find f l = None.
Proof.
  induction l as [| x l IH]; intros H; simpl; [reflexivity |].
  rewrite (H x (or_introl eq_refl)). apply IH. intros y Hy. apply H. now right.
Qed.

(** A strainer for headings or links finds nothing among plain
    elements. *)
Lemma plain_elements_not_found (st : Soup.strainer) (c : node) :
  (forall nm, PyStr.mem nm (Soup.st_name st) = true ->
              PyStr.mem nm ["h2"; "h3"; "h4"; "a"] = true) ->
  forallb plain_element (Soup.descendants c) = true ->
  Soup.find st c = None /\ Soup.find_all st c = [].
Proof.
  intros Hnames Hplain.
  assert (Hnone : forall e, In e (Soup.descendants c) ->
                            Soup.search_tag st e = false).
  { intros e He. rewrite forallb_forall in Hplain. specialize (Hplain e He).
    destruct e as [s | nm cl h kids]; [reflexivity |].
    unfold plain_element in Hplain. cbn [Soup.name] in Hplain.
    cbn [Soup.search_tag].
    destruct (PyStr.mem nm (Soup.st_name st)) eqn:Hm; [| reflexivity].
    rewrite (Hnames nm Hm) in Hplain. discriminate Hplain. }
  split.
  - now apply find_nothing.
  - unfold Soup.find_all. apply filter_none.
    apply forallb_forall. intros e He. now rewrite (Hnone e He).
Qed.

Lemma heading_is_heading_or_link (nm : string) :
  PyStr.mem nm ["h2"; "h3"; "h4"] = true ->
  PyStr.mem nm ["h2"; "h3"; "h4"; "a"] = true.
Proof.
  unfold PyStr.mem. simpl.
  destruct (nm =? "h2"), (nm =? "h3"), (nm =? "h4"); simpl;
    try reflexivity; discriminate.
Qed.

Lemma link_is_heading_or_link (nm : string) :
  PyStr.mem nm ["a"] = true ->
  PyStr.mem nm ["h2"; "h3"; "h4"; "a"] = true.
Proof.
  unfold PyStr.mem. simpl.
  destruct (nm =? "a"); [intros _ | discriminate].
  now rewrite !orb_true_r.
Qed.

(** X13.  A container with no h2, h3 or h4 and no link below it yields no
    name and no website link: the pass leaves both at "N/A", the
    container is not accepted, and it adds one to the count of missing
    names and nothing to the list of tools. *)
Theorem container_without_heading_or_link
    (summarizer : option TextSummarizer.pipeline) (c : node) :
  forallb plain_element (Soup.descendants c) = true ->
  exists l,
    process_container summarizer c = Ok l
    /\ name l = "N/A"
    /\ current_tool_has_name l = false
    /\ website_link l = "N/A"
    /\ current_tool_has_website_link l = false
    /\ accepted l = false
    /\ forall n st,
         (0 < n)%nat ->
         tools_found (update_counts n st l) = tools_found st
         /\ missing_names_count (counts (update_counts n st l))
            = S (missing_names_count (counts st)).
Proof.
  intros Hplain.
  assert (Hname : extract_name c = (NA, false)).
  { apply extract_name_nothing_found. unfold name_element_selectors.
    repeat constructor; cbn [snd];
      apply (plain_elements_not_found _ c); try assumption;
      cbn [Soup.st_name];
      auto using heading_is_heading_or_link, link_is_heading_or_link. }
  destruct (process_container_fields summarizer c)
    as (ft & web & _ & Hweb & _ & _ & Heq).
  assert (Hw : web = (NA, false)).
  { unfold extract_website_link in Hweb.
    destruct (plain_elements_not_found marked_link c
                link_is_heading_or_link Hplain) as [Hm _].
    destruct (plain_elements_not_found link_with_href c
                link_is_heading_or_link Hplain) as [_ Hl].
    rewrite Hm, Hl in Hweb. simpl in Hweb. now injection Hweb as <-. }
  eexists. split; [exact Heq |]. cbv zeta. rewrite Hname, Hw.
  cbn [name current_tool_has_name website_link current_tool_has_website_link
       fst snd].
  repeat (split; [reflexivity |]).
  intros n st Hn. unfold update_counts, accepted.
  cbn [current_tool_has_name andb].
  apply Nat.ltb_lt in Hn. rewrite Hn. split; reflexivity.
Qed.

Lemma container_without_heading_or_link_witness :
  exists l,
    process_container None MoreSamples.card_plain = Ok l
    /\ name l = "N/A"
    /\ current_tool_has_name l = false
    /\ website_link l = "N/A"
    /\ current_tool_has_website_link l = false
    /\ accepted l = false
    /\ forall n st,
         (0 < n)%nat ->
         tools_found (update_counts n st l) = tools_found st
         /\ missing_names_count (counts (update_counts n st l))
            = S (missing_names_count (counts st)).
Proof.
  apply (container_without_heading_or_link None MoreSamples.card_plain).
  reflexivity.
Defined.

End Nameless.
